(** * Vanilla-bot: the persisted workflows of [bot.py]

    A shallow embedding of [ReminderBot] (src/DiscordSuggestionBot/bot.py):
    the JSON stores, the strike ledger, the message counters of
    [on_message], the suggestion commands and the ticket commands.

    Conventions.
    - Discord identifiers are [Z].  The stores use [str(id)] as JSON key
      and [int(key)] on the way back; keys are kept here as the integer
      they spell.
    - [datetime.now()] is an argument of the handler that reads it.
    - A handler returns the new state of the bot, of the files and of
      the guild, and its reply to the invoking user. Replies are kept as
      the branch taken together with the data shown, not as the Spanish
      text of the embed; the field of recent strikes of [/strike check],
      which the code cuts to 1024 characters, is kept as its text.
    - A call to the platform succeeds when its target exists. How a
      write to a store ends is an argument of the handler that saves. *)

From Stdlib Require Import ZArith String List Lia Ascii Bool.
From stdpp Require Import base option list gmap strings.

Local Open Scope string_scope.
Local Open Scope list_scope.
Local Open Scope Z_scope.

(** ** Members and the role gate *)

Record member := Member {
  user_id : Z;
  user_name : string;
  display_name : string;
  is_bot : bool;
  roles : list string;
}.

(** [required_roles] of [has_required_role], bytes as in the source. *)
Definition required_roles : list string :=
  ["Gerente"; "Subgerente"; "ğŸ‘‘ Gerente"; "ğŸ‘‘ Subgerente"].

(** [any(role in user_roles for role in required_roles)] *)
Definition has_required_role (m : member) : bool :=
  existsb (fun role => bool_decide (role ∈ roles m)) required_roles.

(** ** Persisted store

    One JSON file per record set.  What the loaders can tell apart is
    whether the path exists and whether [json.load] accepts the
    content. *)
Module Store.

Inductive file (A : Type) : Type :=
| Missing                (* os.path.exists(path) is False *)
| Document (d : A)       (* one complete JSON document *)
| Truncated.             (* cut by open(path, 'w'), not written to the end *)
Arguments Missing {A}.
Arguments Document {A} d.
Arguments Truncated {A}.

(** How [with open(path, 'w') as f: json.dump(data, f)] ends. *)
Inductive write_outcome : Type :=
| Written                (* the block ran to the end *)
| OpenFailed             (* open raised: the path was not touched *)
| Interrupted.           (* stopped after open truncated the file *)

(** The body of every [save_*]: the target itself is opened in mode
    ['w'], which empties it, and the document is dumped into it. *)
Definition write_file {A} (io : write_outcome) (old : file A) (d : A) : file A :=
  match io with
  | Written => Document d
  | OpenFailed => old
  | Interrupted => Truncated
  end.

(** The body of every [load_*]: [None] stands for both the missing
    path and the [except Exception] branch, which return the default. *)
Definition read_file {A} (f : file A) : option A :=
  match f with
  | Document d => Some d
  | Missing | Truncated => None
  end.

End Store.
Import Store.

(** The line feed of the texts. *)
Definition nl : string := String (ascii_of_nat 10) EmptyString.

(** ** Strike ledger *)

Record strike := Strike {
  tipo : string;
  motivo : string;
  fecha : string;
  autor : string;
}.

#[global] Instance strike_eq_dec : EqDecision strike.
Proof. solve_decision. Defined.

(** The [Literal["leve", "moderado", "grave"]] of the [tipo] option. *)
Inductive severity : Type := Leve | Moderado | Grave.

Definition severity_name (t : severity) : string :=
  match t with
  | Leve => "leve"
  | Moderado => "moderado"
  | Grave => "grave"
  end.

(** The dict [{"leve": _, "moderado": _, "grave": _}]. *)
Record strike_counts := Counts {
  leve : Z;
  moderado : Z;
  grave : Z;
}.

(** [count[strike["tipo"]] += 1]; [None] is the [KeyError]. *)
Definition count_one (count : strike_counts) (s : strike) : option strike_counts :=
  if bool_decide (tipo s = "leve") then
    Some (Counts (leve count + 1) (moderado count) (grave count))
  else if bool_decide (tipo s = "moderado") then
    Some (Counts (leve count) (moderado count + 1) (grave count))
  else if bool_decide (tipo s = "grave") then
    Some (Counts (leve count) (moderado count) (grave count + 1))
  else None.

Fixpoint count_loop (count : strike_counts) (user_strikes : list strike)
  : option strike_counts :=
  match user_strikes with
  | [] => Some count
  | s :: rest =>
      match count_one count s with
      | Some count' => count_loop count' rest
      | None => None
      end
  end.

Definition count_strikes (user_strikes : list strike) : option strike_counts :=
  count_loop (Counts 0 0 0) user_strikes.

Definition despido_directo : string :=
  "ğŸš¨ **POSIBLE DESPIDO DIRECTO** (1+ strikes graves)".
Definition despido_leves : string :=
  "ğŸš¨ **POSIBLE DESPIDO** (5+ strikes leves)".
Definition despido_moderados : string :=
  "ğŸš¨ **POSIBLE DESPIDO** (3+ strikes moderados)".
Definition advertencia_leves : string :=
  "âš ï¸ **ADVERTENCIA** (3+ strikes leves)".
Definition advertencia_moderados : string :=
  "âš ï¸ **ADVERTENCIA** (2+ strikes moderados)".

Definition check_strike_limits (strikes_count : strike_counts) : option string :=
  if 1 <=? grave strikes_count then Some despido_directo
  else if 5 <=? leve strikes_count then Some despido_leves
  else if 3 <=? moderado strikes_count then Some despido_moderados
  else if 3 <=? leve strikes_count then Some advertencia_leves
  else if 2 <=? moderado strikes_count then Some advertencia_moderados
  else None.

(** The interaction of a slash command: who invoked it and where. *)
Record interaction := Interaction {
  i_user : member;
  i_channel_id : Z;
  i_channel_name : string;
}.

Inductive strike_reply : Type :=
| SinPermisos                                   (* ephemeral *)
| FaltaTipoOMotivo                              (* ephemeral *)
| StrikeAgregado (s : strike) (warning : option string)
| SinStrikes                                    (* check: nothing recorded *)
| Historial (c : strike_counts) (estado : option string) (ultimos : string)
| SinStrikesParaRemover                         (* ephemeral *)
| StrikeRemovido (s : strike)
| StrikeCommandFailed.                          (* an exception left the handler *)

Definition load_strikes (f : file (gmap Z (list strike))) : gmap Z (list strike) :=
  default ∅ (read_file f).

Definition save_strikes (io : write_outcome) (f : file (gmap Z (list strike)))
    (strikes_data : gmap Z (list strike)) : file (gmap Z (list strike)) :=
  write_file io f strikes_data.

(** [strikes_data[user_id]] after [if user_id not in strikes_data:
    strikes_data[user_id] = []]. *)
Definition entries (strikes_data : gmap Z (list strike)) (uid : Z) : list strike :=
  default [] (strikes_data !! uid).

Definition _add_strike (io : write_outcome) (today : string) (i : interaction)
    (f : file (gmap Z (list strike))) (strikes_data : gmap Z (list strike))
    (uid : Z) (t : option severity) (reason : option string)
  : file (gmap Z (list strike)) * strike_reply :=
  match t, reason with
  | Some t, Some reason =>
      if bool_decide (reason = "") then (f, FaltaTipoOMotivo)
      else
        let new_strike :=
          Strike (severity_name t) reason today (display_name (i_user i)) in
        let strikes_data := <[uid := entries strikes_data uid ++ [new_strike]]> strikes_data in
        let f := save_strikes io f strikes_data in
        match count_strikes (entries strikes_data uid) with
        | Some strikes_count =>
            (f, StrikeAgregado new_strike (check_strike_limits strikes_count))
        | None => (f, StrikeCommandFailed)
        end
  | _, _ => (f, FaltaTipoOMotivo)
  end.

(** [user_strikes[-5:]] *)
Definition last5 (l : list strike) : list strike :=
  drop (length l - 5)%nat l.

(** The emoji of a severity in the list of recent strikes and its
    [tipo.title()]; [None] is the [KeyError] of the emoji table. *)
Definition strike_heading (t : string) : option (string * string) :=
  if bool_decide (t = "leve") then Some ("ğŸŸ¢", "Leve")
  else if bool_decide (t = "moderado") then Some ("ğŸŸ¡", "Moderado")
  else if bool_decide (t = "grave") then Some ("ğŸ”´", "Grave")
  else None.

(** What one strike adds to [strikes_text]. The entries carry their
    ['autor'], as [_add_strike] writes them. *)
Definition strike_text (s : strike) : option string :=
  match strike_heading (tipo s) with
  | Some (emoji, title) =>
      Some (emoji +:+ " **" +:+ title +:+ "** - " +:+ motivo s +:+ nl
            +:+ "*" +:+ fecha s +:+ " por " +:+ autor s +:+ "*" +:+ nl +:+ nl)
  | None => None
  end.

(** [strikes_text] after the loop over the strikes to show. *)
Fixpoint strikes_text (shown : list strike) : option string :=
  match shown with
  | [] => Some ""
  | s :: rest =>
      match strike_text s, strikes_text rest with
      | Some text, Some more => Some (text +:+ more)
      | _, _ => None
      end
  end.

(** A byte that continues a character in UTF-8. *)
Definition continues_character (a : ascii) : bool :=
  let n := nat_of_ascii a in ((128 <=? n) && (n <? 192))%nat.

(** [len(s)]: the characters of the text. *)
Fixpoint characters (s : string) : nat :=
  match s with
  | EmptyString => O
  | String a rest =>
      if continues_character a then characters rest else S (characters rest)
  end.

(** [s[:n]]: the first [n] characters of the text. *)
Fixpoint first_characters (n : nat) (s : string) : string :=
  match s with
  | EmptyString => EmptyString
  | String a rest =>
      if continues_character a then String a (first_characters n rest)
      else
        match n with
        | O => EmptyString
        | S n => String a (first_characters n rest)
        end
  end.

Definition _check_strikes (strikes_data : gmap Z (list strike)) (uid : Z)
  : strike_reply :=
  match strikes_data !! uid with
  | None | Some [] => SinStrikes
  | Some user_strikes =>
      match count_strikes user_strikes with
      | Some strikes_count =>
          match strikes_text (rev (last5 user_strikes)) with
          | Some text =>
              Historial strikes_count (check_strike_limits strikes_count)
                (first_characters 1024 text)
          | None => StrikeCommandFailed
          end
      | None => StrikeCommandFailed
      end
  end.

(** [list.pop()] on a non-empty list: the list without its last element
    and that element. *)
Definition pop (l : list strike) : option (list strike * strike) :=
  match last l with
  | Some s => Some (removelast l, s)
  | None => None
  end.

Definition _remove_strike (io : write_outcome)
    (f : file (gmap Z (list strike))) (strikes_data : gmap Z (list strike))
    (uid : Z) : file (gmap Z (list strike)) * strike_reply :=
  match pop (entries strikes_data uid) with
  | None => (f, SinStrikesParaRemover)
  | Some (rest, removed_strike) =>
      let strikes_data := <[uid := rest]> strikes_data in
      (save_strikes io f strikes_data, StrikeRemovido removed_strike)
  end.

Inductive accion : Type :=
| Add (t : option severity) (reason : option string)
| CheckStrikes
| Remove.

Definition strike_command (io : write_outcome) (today : string) (i : interaction)
    (f : file (gmap Z (list strike))) (a : accion) (usuario : member)
  : file (gmap Z (list strike)) * strike_reply :=
  if negb (has_required_role (i_user i)) then (f, SinPermisos)
  else
    let strikes_data := load_strikes f in
    let uid := user_id usuario in
    match a with
    | Add t reason => _add_strike io today i f strikes_data uid t reason
    | CheckStrikes => (f, _check_strikes strikes_data uid)
    | Remove => _remove_strike io f strikes_data uid
    end.

(** ** The platform

    What the handlers read from Discord and what their calls change:
    channels, the messages in them, reactions and embeds. Identifiers of
    new messages and channels are handed out by the platform. *)

Record embed := Embed {
  e_title : string;
  e_description : string;
  e_color : Z;
  e_footer : string;
  e_fields : list (string * string);
}.

Record message := Message {
  msg_author : member;
  msg_content : string;
  msg_embeds : list embed;
  msg_reactions : list (string * Z);      (* emoji, count *)
  msg_file : option (string * string);    (* attached file: name, text *)
}.

Inductive overwrite : Type :=
| DenyEveryone                            (* default_role: read_messages=False *)
| AllowMember (uid : Z) (manage : bool)
| AllowRole (name : string).

Record channel := Channel {
  ch_name : string;
  ch_topic : string;
  ch_overwrites : list overwrite;
  ch_messages : list (Z * message);       (* oldest first *)
}.

Record world := World {
  w_channels : gmap Z channel;
  w_roles : list string;                  (* guild.roles, by name *)
  w_me : member;                          (* guild.me *)
  w_next_id : Z;                          (* next identifier handed out *)
}.

Definition get_channel (w : world) (id : Z) : option channel :=
  w_channels w !! id.

(** The messages of a channel of the guild, none when there is no such
    channel. *)
Definition messages_of (w : world) (ch : Z) : list (Z * message) :=
  default [] (ch_messages <$> get_channel w ch).

Definition set_channels (w : world) (cs : gmap Z channel) : world :=
  World cs (w_roles w) (w_me w) (w_next_id w).

Definition set_messages (c : channel) (ms : list (Z * message)) : channel :=
  Channel (ch_name c) (ch_topic c) (ch_overwrites c) ms.

(** [channel.fetch_message(id)]; [None] is [discord.NotFound]. *)
Definition fetch_message (c : channel) (mid : Z) : option message :=
  snd <$> List.find (fun p => bool_decide (fst p = mid)) (ch_messages c).

(** [channel.send(...)]: the new message gets the next identifier. *)
Definition post (w : world) (ch : Z) (m : message) : world * Z :=
  let mid := w_next_id w in
  (World (alter (fun c => set_messages c (ch_messages c ++ [(mid, m)])) ch (w_channels w))
         (w_roles w) (w_me w) (mid + 1),
   mid).

Definition send (w : world) (ch : Z) (text : string) (embeds : list embed)
  : world * Z :=
  post w ch (Message (w_me w) text embeds [] None).

(** [channel.send(file=discord.File(f, filename=name))] *)
Definition send_file (w : world) (ch : Z) (name text : string) : world * Z :=
  post w ch (Message (w_me w) "" [] [] (Some (name, text))).

(** [message.delete()] *)
Definition delete_message (w : world) (ch mid : Z) : world :=
  set_channels w
    (alter (fun c => set_messages c
                       (List.filter (fun p => negb (bool_decide (fst p = mid)))
                                    (ch_messages c)))
           ch (w_channels w)).

Definition map_message (f : message -> message) (mid : Z) (c : channel) : channel :=
  set_messages c
    (List.map (fun p => if bool_decide (fst p = mid) then (fst p, f (snd p)) else p)
              (ch_messages c)).

(** [message.edit(embed=e)] *)
Definition edit_message (w : world) (ch mid : Z) (e : embed) : world :=
  set_channels w
    (alter (map_message
              (fun m => Message (msg_author m) (msg_content m) [e] (msg_reactions m)
                          (msg_file m)) mid)
           ch (w_channels w)).

(** [message.add_reaction(emoji)] by the bot on a message it has just
    sent: a first reaction with that emoji counts one, the same emoji
    again changes nothing. *)
Definition add_reaction (w : world) (ch mid : Z) (emoji : string) : world :=
  set_channels w
    (alter (map_message
              (fun m =>
                 if bool_decide (emoji ∈ (fst <$> msg_reactions m)) then m
                 else Message (msg_author m) (msg_content m) (msg_embeds m)
                        (msg_reactions m ++ [(emoji, 1)]) (msg_file m)) mid)
           ch (w_channels w)).

(** [guild.create_text_channel(name, overwrites=..., position=0, topic=...)] *)
Definition create_text_channel (w : world) (name topic : string)
    (overwrites : list overwrite) : world * Z :=
  let cid := w_next_id w in
  (World (<[cid := Channel name topic overwrites []]> (w_channels w))
         (w_roles w) (w_me w) (cid + 1),
   cid).

(** [channel.delete(...)] *)
Definition delete_channel (w : world) (ch : Z) : world :=
  set_channels w (delete ch (w_channels w)).

(** [channel.set_permissions(usuario, read_messages=True, ...)] *)
Definition set_permissions (w : world) (ch : Z) (uid : Z) : world :=
  set_channels w
    (alter (fun c => Channel (ch_name c) (ch_topic c)
                       (ch_overwrites c ++ [AllowMember uid false]) (ch_messages c))
           ch (w_channels w)).

(** ** Text helpers *)

(** [str(n)] of an [int]. *)
Definition str (n : Z) : string := pretty.pretty n.

(** [member.mention] *)
Definition mention (m : member) : string := "<@" +:+ str (user_id m) +:+ ">".

Fixpoint zeros (k : nat) : string :=
  match k with
  | O => EmptyString
  | S k => String "0"%char (zeros k)
  end.

(** [f"{n:04d}"] *)
Definition fmt04 (n : Z) : string :=
  if n <? 0 then
    let digits := str (- n) in
    "-" +:+ zeros (3 - String.length digits) +:+ digits
  else
    let digits := str n in
    zeros (4 - String.length digits) +:+ digits.

Definition lower_char (a : ascii) : ascii :=
  let n := nat_of_ascii a in
  if ((65 <=? n) && (n <=? 90))%nat then ascii_of_nat (n + 32) else a.

(** [s.lower()]. Compared below with four ASCII constants only, and no
    character outside A-Z lower-cases to a letter of those constants, so
    the letters A-Z are the ones that count. *)
Fixpoint lower (s : string) : string :=
  match s with
  | EmptyString => EmptyString
  | String a rest => String (lower_char a) (lower rest)
  end.

Definition utf8 (bytes : list nat) : list ascii := List.map ascii_of_nat bytes.

(** The characters [str.strip()] removes, in UTF-8: U+0009..U+000D,
    U+001C..U+0020, U+0085, U+00A0, U+1680, U+2000..U+200A, U+2028,
    U+2029, U+202F, U+205F, U+3000. *)
Definition whitespace : list (list ascii) :=
  List.map (fun b => utf8 [b]) [9; 10; 11; 12; 13; 28; 29; 30; 31; 32]%nat
  ++ [utf8 [194; 133]; utf8 [194; 160]; utf8 [225; 154; 128]]%nat
  ++ List.map (fun b => utf8 [226; 128; b]%nat)
       [128; 129; 130; 131; 132; 133; 134; 135; 136; 137; 138; 168; 169; 175]%nat
  ++ [utf8 [226; 129; 159]; utf8 [227; 128; 128]]%nat.

Fixpoint starts_with (p l : list ascii) : bool :=
  match p, l with
  | [], _ => true
  | a :: p, b :: l => bool_decide (a = b) && starts_with p l
  | _ :: _, [] => false
  end.

Fixpoint lstrip_fuel (ws : list (list ascii)) (fuel : nat) (l : list ascii)
  : list ascii :=
  match fuel with
  | O => l
  | S fuel =>
      match List.find (fun w => starts_with w l) ws with
      | Some w => lstrip_fuel ws fuel (drop (length w) l)
      | None => l
      end
  end.

Definition lstrip (ws : list (list ascii)) (l : list ascii) : list ascii :=
  lstrip_fuel ws (length l) l.

(** [s.strip()] *)
Definition strip (s : string) : string :=
  let l := lstrip whitespace (list_ascii_of_string s) in
  let r := lstrip (List.map (@rev ascii) whitespace) (rev l) in
  string_of_list_ascii (rev r).

(** [s.startswith(p)] *)
Definition startswith (s p : string) : bool := String.prefix p s.

(** ** Bot state *)

Record config := Config {
  CHANNEL_ID : Z;
  MESSAGE_THRESHOLD : Z;
  REMINDER_MESSAGE : string;
}.

(** The attributes of [ReminderBot] that the handlers assign. *)
Record bot := Bot {
  message_counters : gmap Z Z;
  suggestions_command_counter : Z;
  suggestions_command_threshold : Z;
  help_message_counter : Z;
  help_message_threshold : Z;
  ticket_counter : Z;
}.

Definition welcome_channel_id : Z := 1386434424781934724.
Definition suggestions_results_channel_id : Z := 1386735237165351073.

Definition set_message_counters (b : bot) (v : gmap Z Z) : bot :=
  Bot v (suggestions_command_counter b) (suggestions_command_threshold b)
      (help_message_counter b) (help_message_threshold b) (ticket_counter b).

Definition set_suggestions_command_counter (b : bot) (v : Z) : bot :=
  Bot (message_counters b) v (suggestions_command_threshold b)
      (help_message_counter b) (help_message_threshold b) (ticket_counter b).

Definition set_help_message_counter (b : bot) (v : Z) : bot :=
  Bot (message_counters b) (suggestions_command_counter b)
      (suggestions_command_threshold b) v (help_message_threshold b)
      (ticket_counter b).

Definition set_ticket_counter (b : bot) (v : Z) : bot :=
  Bot (message_counters b) (suggestions_command_counter b)
      (suggestions_command_threshold b) (help_message_counter b)
      (help_message_threshold b) v.

Record suggestion := Suggestion {
  s_user_id : Z;
  s_user_name : string;
  s_suggestion : string;
  s_status : string;
  s_created_at : string;
  s_channel_id : Z;
  s_reviewed_by : option Z;
  s_reviewed_at : option string;
  s_moved_to_results : option bool;
  s_final_votes : option (Z * Z);         (* upvotes, downvotes *)
}.

Record ticket := Ticket {
  t_number : Z;
  t_creator_id : Z;
  t_creator_name : string;
  t_motivo : string;
  t_created_at : string;
  t_status : string;
  t_closed_by : option Z;
  t_closed_at : option string;
}.

(** The document of tickets.json: [{'counter': _, 'tickets': _}];
    [save_tickets] writes both keys, so the defaults of [data.get] in
    [load_tickets] are not reached. *)
Record tickets_doc := TicketsDoc {
  doc_counter : Z;
  doc_tickets : gmap Z ticket;
}.

Record disk := Disk {
  counter_file : file (gmap Z Z);             (* message_counters.json *)
  strikes_file : file (gmap Z (list strike)); (* strikes.json *)
  suggestions_file : file (gmap Z suggestion);(* suggestions.json *)
  tickets_file : file tickets_doc;            (* tickets.json *)
}.

Definition set_counter_file (d : disk) (f : file (gmap Z Z)) : disk :=
  Disk f (strikes_file d) (suggestions_file d) (tickets_file d).

Definition set_strikes_file (d : disk) (f : file (gmap Z (list strike))) : disk :=
  Disk (counter_file d) f (suggestions_file d) (tickets_file d).

Definition set_suggestions_file (d : disk) (f : file (gmap Z suggestion)) : disk :=
  Disk (counter_file d) (strikes_file d) f (tickets_file d).

Definition set_tickets_file (d : disk) (f : file tickets_doc) : disk :=
  Disk (counter_file d) (strikes_file d) (suggestions_file d) f.

Definition load_counters (b : bot) (d : disk) : bot :=
  set_message_counters b (default ∅ (read_file (counter_file d))).

Definition save_counters (io : write_outcome) (b : bot) (d : disk) : disk :=
  set_counter_file d (write_file io (counter_file d) (message_counters b)).

Definition load_suggestions (d : disk) : gmap Z suggestion :=
  default ∅ (read_file (suggestions_file d)).

Definition save_suggestions (io : write_outcome) (d : disk)
    (suggestions_data : gmap Z suggestion) : disk :=
  set_suggestions_file d (write_file io (suggestions_file d) suggestions_data).

(** [load_tickets] also assigns [self.ticket_counter] when the document
    is read. *)
Definition load_tickets (b : bot) (d : disk) : bot * gmap Z ticket :=
  match read_file (tickets_file d) with
  | Some data => (set_ticket_counter b (doc_counter data), doc_tickets data)
  | None => (b, ∅)
  end.

Definition save_tickets (io : write_outcome) (b : bot) (d : disk)
    (tickets_data : gmap Z ticket) : disk :=
  set_tickets_file d
    (write_file io (tickets_file d) (TicketsDoc (ticket_counter b) tickets_data)).

(** [ReminderBot.__init__]: the process starts on the files it finds. *)
Definition init (d : disk) : bot :=
  load_counters (Bot ∅ 0 5 0 10 0) d.

(** ** [on_message] *)

Record incoming := Incoming {
  in_id : Z;
  in_channel : Z;
  in_channel_name : option string;        (* a DM channel has no name *)
  in_author : member;
  in_content : string;
}.

Inductive message_outcome : Type :=
| FromBot                                 (* ignored *)
| TestCommand (welcome_found : bool)
| RemovedFromSuggestions                  (* deleted, warning shown *)
| Counted (reminder : bool)               (* monitored channel *)
| RemovedFromTicket                       (* deleted, warning shown *)
| Forwarded (help : bool).                (* reached process_commands *)

Definition ticket_prefix : string := "ğŸŸï¸-ticket-".

Definition welcome_message (m : member) : string :=
  "ğŸ‘‹ Â¡Bienvenido/a, " +:+ mention m +:+ "! Gracias por unirte a nuestro servidor.".

Definition goodbye_message (m : member) : string :=
  "ğŸ‘‹ " +:+ display_name m +:+ " ha salido del servidor. Â¡Hasta pronto!".

Definition suggestions_warning (m : member) : embed :=
  Embed "âš ï¸ Mensaje no permitido"
        (mention m +:+ ", solo puedes usar comandos en este canal." +:+ nl +:+ nl
         +:+ "Usa `/suggest create` para hacer una sugerencia.")
        16750848 "" [].

Definition ticket_warning (m : member) : embed :=
  Embed "âš ï¸ Solo administradores pueden responder"
        (mention m +:+ ", solo los administradores pueden responder en los tickets.")
        16750848 "" [].

Definition help_message : string :=
  "ğŸ†˜ __***Â¿Te hace falta ayuda al momento?***__" +:+ nl
  +:+ "Escribe por aquÃ­ y te echamos una mano rÃ¡pido entre todos. ğŸ‘‡".

(** [message.delete()], the warning, [asyncio.sleep(10)] and the
    removal of the warning. *)
Definition remove_with_warning (w : world) (m : incoming) (warning : embed) : world :=
  let w := delete_message w (in_channel m) (in_id m) in
  let '(w, warning_msg) := send w (in_channel m) "" [warning] in
  delete_message w (in_channel m) warning_msg.

(** The counting block up to [await self.send_reminder(...)]: read,
    add one, store, compare. *)
Definition count_message (cfg : config) (b : bot) (ch : Z) : bot * bool :=
  let current_count := default 0 (message_counters b !! ch) + 1 in
  (set_message_counters b (<[ch := current_count]> (message_counters b)),
   MESSAGE_THRESHOLD cfg <=? current_count).

Definition send_reminder (cfg : config) (w : world) (ch : Z) : world :=
  fst (send w ch (REMINDER_MESSAGE cfg) []).

(** The counter reset after the reminder came back. *)
Definition reset_after_reminder (b : bot) (ch : Z) : bot :=
  set_message_counters b (<[ch := 0]> (message_counters b)).

Definition count_block (cfg : config) (io : write_outcome) (b : bot) (d : disk)
    (w : world) (ch : Z) : bot * disk * world * bool :=
  let '(b, reached) := count_message cfg b ch in
  if reached then
    let w := send_reminder cfg w ch in
    let b := reset_after_reminder b ch in
    (b, save_counters io b d, w, true)
  else (b, save_counters io b d, w, false).

(** The restriction in ticket channels; [Some w] when the message was
    removed. [load_tickets] runs only for a member without the role. *)
Definition ticket_gate (b : bot) (d : disk) (w : world) (m : incoming)
  : bot * option world :=
  match in_channel_name m with
  | Some name =>
      if startswith name ticket_prefix
         && negb (is_bot (in_author m))
         && negb (has_required_role (in_author m))
      then
        let '(b, tickets_data) := load_tickets b d in
        match tickets_data !! in_channel m with
        | Some ticket_info =>
            if bool_decide (user_id (in_author m) ≠ t_creator_id ticket_info)
            then (b, Some (remove_with_warning w m (ticket_warning (in_author m))))
            else (b, None)
        | None => (b, None)
        end
      else (b, None)
  | None => (b, None)
  end.

(** The help counter at the end of [on_message]. *)
Definition help_block (b : bot) (w : world) (m : incoming) : bot * world * bool :=
  if negb (startswith (in_content m) "/")
     && negb (is_bot (in_author m))
     && bool_decide (is_Some (in_channel_name m))
  then
    let b := set_help_message_counter b (help_message_counter b + 1) in
    if help_message_threshold b <=? help_message_counter b then
      let b := set_help_message_counter b 0 in
      (b, fst (send w (in_channel m) help_message []), true)
    else (b, w, false)
  else (b, w, false).

Definition test_command (w : world) (m : incoming) (text confirmation : string)
  : world * message_outcome :=
  match get_channel w welcome_channel_id with
  | Some _ =>
      let w := fst (send w welcome_channel_id text []) in
      let w := fst (send w (in_channel m) confirmation []) in
      (w, TestCommand true)
  | None => (w, TestCommand false)
  end.

Definition on_message (cfg : config) (io : write_outcome) (b : bot) (d : disk)
    (w : world) (m : incoming) : bot * disk * world * message_outcome :=
  if is_bot (in_author m) then (b, d, w, FromBot)
  else
    let content := strip (lower (in_content m)) in
    if bool_decide (content = "/test bienvenida")
       || bool_decide (content = "test bienvenida")
    then
      let '(w, o) := test_command w m (welcome_message (in_author m))
                       "Mensaje de bienvenida enviado." in
      (b, d, w, o)
    else if bool_decide (content = "/test despedida")
            || bool_decide (content = "test despedida")
    then
      let '(w, o) := test_command w m (goodbye_message (in_author m))
                       "Mensaje de despedida enviado." in
      (b, d, w, o)
    else if bool_decide (in_channel m = CHANNEL_ID cfg) then
      if negb (startswith (in_content m) "/")
         && negb (has_required_role (in_author m))
      then
        (b, d, remove_with_warning w m (suggestions_warning (in_author m)),
         RemovedFromSuggestions)
      else
        let '(b, d, w, reminder) := count_block cfg io b d w (in_channel m) in
        (b, d, w, Counted reminder)
    else
      match ticket_gate b d w m with
      | (b, Some w) => (b, d, w, RemovedFromTicket)
      | (b, None) =>
          let '(b, w, help) := help_block b w m in
          (b, d, w, Forwarded help)
      end.

(** ** Suggestions *)

Record clock := Clock {
  iso : string;                           (* datetime.now().isoformat() *)
  epoch : Z;                              (* int(datetime.now().timestamp()) *)
}.

(** The two reaction emoji, thumbs up (U+1F44D) and thumbs down (U+1F44E).
    [bot.py] stores them in a damaged encoding that drops the last byte of
    each; the bot reacts with, and counts, the two emoji. *)
Definition thumbs_up : string := "👍".
Definition thumbs_down : string := "👎".

Inductive suggest_reply : Type :=
| SugerenciaEnviada                       (* ephemeral *)
| NoTienesPermisos                        (* ephemeral *)
| SugerenciaNoEncontrada                  (* no record under that id *)
| MensajeOriginalNoEncontrado             (* the message could not be fetched *)
| SugerenciaAceptada
| SugerenciaRechazada
| ErrorAlResolver.                        (* the outer except branch *)

Definition suggestion_reminder : string :=
  "ğŸ’¬ __***Â¿Tienes alguna sugerencia?***__" +:+ nl
  +:+ "Puedes enviar ideas tanto ğŸ§  **OOC**, ğŸ­ **IC** como del ğŸŒ **Discord**." +:+ nl
  +:+ "Usa el comando ğŸ‘‰ `/suggest create` para hacer tu propuesta.".

Definition suggest_create (cfg : config) (io : write_outcome) (now : clock)
    (b : bot) (d : disk) (w : world) (i : interaction) (sugerencia : string)
  : bot * disk * world * suggest_reply :=
  let embed :=
    Embed "ğŸ’¡ Nueva Sugerencia" sugerencia 3447003
          "Reacciona con ğŸ‘ o ğŸ‘ para votar â€¢ Estado: Pendiente" [] in
  let '(w, message_id) := send w (i_channel_id i) "" [embed] in
  let w := add_reaction w (i_channel_id i) message_id thumbs_up in
  let w := add_reaction w (i_channel_id i) message_id thumbs_down in
  let suggestions_data := load_suggestions d in
  let suggestions_data :=
    <[message_id :=
        Suggestion (user_id (i_user i)) (display_name (i_user i)) sugerencia
                   "pending" (iso now) (i_channel_id i) None None None None]>
      suggestions_data in
  let d := save_suggestions io d suggestions_data in
  let b := set_suggestions_command_counter b (suggestions_command_counter b + 1) in
  if suggestions_command_threshold b <=? suggestions_command_counter b then
    let b := set_suggestions_command_counter b 0 in
    match get_channel w (CHANNEL_ID cfg) with
    | Some _ =>
        (b, d, fst (send w (CHANNEL_ID cfg) suggestion_reminder []), SugerenciaEnviada)
    | None => (b, d, w, SugerenciaEnviada)
    end
  else (b, d, w, SugerenciaEnviada).

(** The loop over [message.reactions]: the [elif] is tried only when the
    first comparison fails. *)
Fixpoint count_votes (reactions : list (string * Z)) (upvotes downvotes : Z) : Z * Z :=
  match reactions with
  | [] => (upvotes, downvotes)
  | (emoji, count) :: rest =>
      if bool_decide (emoji = thumbs_up) then count_votes rest (count - 1) downvotes
      else if bool_decide (emoji = thumbs_down) then count_votes rest upvotes (count - 1)
      else count_votes rest upvotes downvotes
  end.

(** What differs between [suggest_accept] and [suggest_deny]. *)
Record verdict := Verdict {
  v_color : Z;
  v_footer : string;
  v_status : string;
  v_reply : suggest_reply;
}.

Definition accept_verdict : verdict :=
  Verdict 3066993 "Estado: âœ… ACEPTADA" "accepted" SugerenciaAceptada.

Definition deny_verdict : verdict :=
  Verdict 15158332 "Estado: âŒ RECHAZADA" "denied" SugerenciaRechazada.

Definition reviewed_embed (v : verdict) (now : clock) (reviewer : member)
    (upvotes downvotes : Z) (e : embed) : embed :=
  Embed (e_title e) (e_description e) (v_color v) (v_footer v)
        (e_fields e
         ++ [("Revisado por", "<@" +:+ str (user_id reviewer) +:+ ">");
             ("Fecha de revisiÃ³n", "<t:" +:+ str (epoch now) +:+ ":R>");
             ("Votos", "ğŸ‘ " +:+ str upvotes +:+ " | ğŸ‘ " +:+ str downvotes)]).

(** The common body of [suggest_accept] and [suggest_deny];
    [message_id] is the identifier that the command's text spells. *)
Definition suggest_resolve (v : verdict) (io : write_outcome) (now : clock)
    (d : disk) (w : world) (i : interaction) (message_id : Z)
  : disk * world * suggest_reply :=
  if negb (has_required_role (i_user i)) then (d, w, NoTienesPermisos)
  else
    let suggestions_data := load_suggestions d in
    match suggestions_data !! message_id with
    | None => (d, w, SugerenciaNoEncontrada)
    | Some record =>
        match get_channel w (s_channel_id record) ≫= (fun c => fetch_message c message_id) with
        | None => (d, w, MensajeOriginalNoEncontrado)
        | Some message =>
            let '(upvotes, downvotes) := count_votes (msg_reactions message) 0 0 in
            match msg_embeds message with
            | [] => (d, w, ErrorAlResolver)            (* embeds[0]: IndexError *)
            | e :: _ =>
                let embed := reviewed_embed v now (i_user i) upvotes downvotes e in
                let w :=
                  match get_channel w suggestions_results_channel_id with
                  | Some _ =>
                      let w := fst (send w suggestions_results_channel_id "" [embed]) in
                      delete_message w (s_channel_id record) message_id
                  | None => edit_message w (s_channel_id record) message_id embed
                  end in
                let record :=
                  Suggestion (s_user_id record) (s_user_name record)
                             (s_suggestion record) (v_status v) (s_created_at record)
                             (s_channel_id record) (Some (user_id (i_user i)))
                             (Some (iso now)) (Some true) (Some (upvotes, downvotes)) in
                let suggestions_data := <[message_id := record]> suggestions_data in
                (save_suggestions io d suggestions_data, w, v_reply v)
            end
        end
    end.

Definition suggest_accept := suggest_resolve accept_verdict.
Definition suggest_deny := suggest_resolve deny_verdict.

(** ** Tickets *)

Inductive ticket_reply : Type :=
| TicketCreado (number : Z) (channel_id : Z)  (* ephemeral *)
| NoPuedesCerrar                              (* ephemeral: role missing *)
| NoPuedesAnadir                              (* ephemeral: role missing *)
| SoloEnCanalesDeTicket                       (* ephemeral *)
| TicketSinInformacion                        (* ephemeral: no record *)
| TicketCerrado                               (* ephemeral *)
| UsuarioAnadido (uid : Z).

Definition admin_role_names : list string :=
  ["ğŸ‘‘ Gerente"; "ğŸ‘‘ Subgerente"; "Gerente"; "Subgerente"].

Definition ticket_greeting (ticket_number : Z) (creator : member) (reason : string)
  : embed :=
  Embed ("ğŸŸï¸ Ticket #" +:+ fmt04 ticket_number)
        ("**Creado por:** " +:+ mention creator +:+ nl +:+ "**Motivo:** " +:+ reason)
        65280 "Ticket creado"
        [("ğŸ“‹ Instrucciones",
          "â€¢ Solo los administradores pueden responder" +:+ nl
          +:+ "â€¢ Los admins pueden usar `/ticket add @usuario` para aÃ±adir personas" +:+ nl
          +:+ "â€¢ Solo los admins pueden cerrar el ticket con `/ticket cerrar`" +:+ nl
          +:+ "â€¢ Al cerrar se generarÃ¡ una transcripciÃ³n automÃ¡tica")].

Definition create_ticket (io : write_outcome) (now : clock) (b : bot) (d : disk)
    (w : world) (i : interaction) (reason : string)
  : bot * disk * world * ticket_reply :=
  let b := set_ticket_counter b (ticket_counter b + 1) in
  let ticket_number := ticket_counter b in
  let channel_name := ticket_prefix +:+ fmt04 ticket_number in
  let overwrites :=
    [DenyEveryone; AllowMember (user_id (i_user i)) false;
     AllowMember (user_id (w_me w)) true]
    ++ (AllowRole <$> List.filter (fun name => bool_decide (name ∈ admin_role_names))
                                  (w_roles w)) in
  let '(w, ticket_channel) :=
    create_text_channel w channel_name
      ("Ticket #" +:+ fmt04 ticket_number +:+ " - Creado por "
       +:+ display_name (i_user i))
      overwrites in
  let '(b, tickets_data) := load_tickets b d in
  let tickets_data :=
    <[ticket_channel :=
        Ticket ticket_number (user_id (i_user i)) (display_name (i_user i)) reason
               (iso now) "open" None None]> tickets_data in
  let d := save_tickets io b d tickets_data in
  let w := fst (send w ticket_channel "" [ticket_greeting ticket_number (i_user i) reason]) in
  (b, d, w, TicketCreado ticket_number ticket_channel).

(** One line of the transcript for a message of the history; the
    [created_at] stamp in front of it is not kept in the model. *)
Definition transcript_line (m : message) : string :=
  display_name (msg_author m) +:+ ": "
  +:+ (if bool_decide (msg_content m = "") then "[Embed/Archivo]" else msg_content m).

Fixpoint join_lines (lines : list string) : string :=
  match lines with
  | [] => ""
  | [l] => l
  | l :: rest => l +:+ nl +:+ join_lines rest
  end.

(** [generate_transcript]. The record it receives from [close_ticket]
    is the stored one: reading ['closed_by'] or ['closed_at'] from it
    raises [KeyError] unless the ticket was closed before, and the
    function's own [except] ends it. The dates are shown as stored. *)
Definition generate_transcript (w : world) (ch : Z) (ticket_info : ticket) : world :=
  match List.find (fun p => bool_decide (ch_name (snd p) = "transcript"))
                  (map_to_list (w_channels w)) with
  | None => w
  | Some (transcript_channel, _) =>
      let messages :=
        transcript_line <$>
          List.filter (fun m => negb (is_bot (msg_author m))
                                || negb (bool_decide (msg_embeds m = [])))
            (snd <$> default [] (ch_messages <$> get_channel w ch)) in
      match t_closed_by ticket_info, t_closed_at ticket_info with
      | Some closed_by, Some closed_at =>
          let embed :=
            Embed ("ğŸ“„ TranscripciÃ³n Ticket #" +:+ fmt04 (t_number ticket_info)) ""
                  3092790 ""
                  [("Creador", "<@" +:+ str (t_creator_id ticket_info) +:+ ">");
                   ("Motivo", t_motivo ticket_info);
                   ("Cerrado por", "<@" +:+ str closed_by +:+ ">");
                   ("Creado", t_created_at ticket_info);
                   ("Cerrado", closed_at);
                   ("Total Mensajes", str (Z.of_nat (length messages)))] in
          let w := fst (send w transcript_channel "" [embed]) in
          match messages with
          | [] => w
          | _ =>
              fst (send_file w transcript_channel
                     ("ticket-" +:+ fmt04 (t_number ticket_info) +:+ "-transcript.txt")
                     (join_lines messages))
          end
      | _, _ => w
      end
  end.

Definition close_ticket (io : write_outcome) (now : clock) (b : bot) (d : disk)
    (w : world) (i : interaction) : bot * disk * world * ticket_reply :=
  if negb (has_required_role (i_user i)) then (b, d, w, NoPuedesCerrar)
  else if negb (startswith (i_channel_name i) ticket_prefix)
  then (b, d, w, SoloEnCanalesDeTicket)
  else
    let '(b, tickets_data) := load_tickets b d in
    match tickets_data !! i_channel_id i with
    | None => (b, d, w, TicketSinInformacion)
    | Some ticket_info =>
        let w := generate_transcript w (i_channel_id i) ticket_info in
        let ticket_info :=
          Ticket (t_number ticket_info) (t_creator_id ticket_info)
                 (t_creator_name ticket_info) (t_motivo ticket_info)
                 (t_created_at ticket_info) "closed"
                 (Some (user_id (i_user i))) (Some (iso now)) in
        let tickets_data := <[i_channel_id i := ticket_info]> tickets_data in
        let d := save_tickets io b d tickets_data in
        (b, d, delete_channel w (i_channel_id i), TicketCerrado)
    end.

Definition add_user_to_ticket (w : world) (i : interaction) (usuario : member)
  : world * ticket_reply :=
  if negb (has_required_role (i_user i)) then (w, NoPuedesAnadir)
  else if negb (startswith (i_channel_name i) ticket_prefix)
  then (w, SoloEnCanalesDeTicket)
  else (set_permissions w (i_channel_id i) (user_id usuario),
        UsuarioAnadido (user_id usuario)).

(** ** Interleaved message handlers

    [on_message] is a coroutine: between two [await]s it runs alone. In
    the counting block the only [await] is [send_reminder], reached after
    the incremented counter was stored and before it is reset. A handler
    that does not reach the threshold runs to its end in one piece. *)
Module Interleaving.

Inductive event : Type :=
| Arrive                                (* a handler starts and runs to its await or end *)
| Resume.                               (* a waiting handler continues *)

Record state := State {
  st_bot : bot;
  st_disk : disk;
  st_world : world;
  st_waiting : nat;                     (* handlers suspended in send_reminder *)
  st_fired : nat;                       (* calls of send_reminder so far *)
}.

Section OneChannel.
Variable cfg : config.
Variable ch : Z.

Definition step (s : state) (e : event) : state :=
  match e with
  | Arrive =>
      let '(b, reached) := count_message cfg (st_bot s) ch in
      if reached then
        State b (st_disk s) (send_reminder cfg (st_world s) ch)
              (S (st_waiting s)) (S (st_fired s))
      else
        State b (save_counters Written b (st_disk s)) (st_world s)
              (st_waiting s) (st_fired s)
  | Resume =>
      match st_waiting s with
      | S waiting =>
          let b := reset_after_reminder (st_bot s) ch in
          State b (save_counters Written b (st_disk s)) (st_world s) waiting
                (st_fired s)
      | O => s
      end
  end.

(** The counter of the channel as the bot holds it. *)
Definition counter_of (s : state) : Z :=
  default 0 (message_counters (st_bot s) !! ch).

Definition run (s : state) (schedule : list event) : state :=
  fold_left step schedule s.

(** Every handler runs to its end before the next one starts. *)
Fixpoint serial (n : nat) : list event :=
  match n with
  | O => []
  | S n => Arrive :: Resume :: serial n
  end.

End OneChannel.

(** The same handlers at the help counter of [on_message], for messages
    with the content and channel of [m]: the counter is set back before
    the await of [send], so a handler that waits there has left the
    counter at zero. *)
Definition step_help (m : incoming) (s : state) (e : event) : state :=
  match e with
  | Arrive =>
      let '(b, w, reached) := help_block (st_bot s) (st_world s) m in
      if reached then State b (st_disk s) w (S (st_waiting s)) (S (st_fired s))
      else State b (st_disk s) w (st_waiting s) (st_fired s)
  | Resume =>
      match st_waiting s with
      | S waiting =>
          State (st_bot s) (st_disk s) (st_world s) waiting (st_fired s)
      | O => s
      end
  end.

Definition run_help (m : incoming) (s : state) (schedule : list event) : state :=
  fold_left (step_help m) schedule s.

Definition arrivals (schedule : list event) : nat :=
  length (List.filter (fun e => match e with Arrive => true | Resume => false end)
                      schedule).

Definition start (b : bot) (d : disk) (w : world) : state := State b d w 0 0.

End Interleaving.

(** ** Vocabulary of the specification *)

(** The escalation tiers of the strike policy. *)
Inductive escalation : Type :=
| DirectTerminationRisk
| TerminationRisk
| Warning
| NoEscalation.

(** The tier announced by a result of [check_strike_limits]. *)
Definition tier (result : option string) : option escalation :=
  match result with
  | None => Some NoEscalation
  | Some text =>
      if bool_decide (text = despido_directo) then Some DirectTerminationRisk
      else if bool_decide (text = despido_leves) || bool_decide (text = despido_moderados)
      then Some TerminationRisk
      else if bool_decide (text = advertencia_leves)
              || bool_decide (text = advertencia_moderados)
      then Some Warning
      else None
  end.

(** The policy in the words of the specification: most severe first. *)
Definition escalation_spec (minor moderate severe : Z) : escalation :=
  if 1 <=? severe then DirectTerminationRisk
  else if (5 <=? minor) || (3 <=? moderate) then TerminationRisk
  else if (3 <=? minor) || (2 <=? moderate) then Warning
  else NoEscalation.

(** The three severities the ledger knows. *)
Definition recognized (s : strike) : Prop :=
  tipo s = "leve" \/ tipo s = "moderado" \/ tipo s = "grave".

Definition total (c : strike_counts) : Z := leve c + moderado c + grave c.

(** The four spellings [on_message] takes for a test command. *)
Definition is_test_command (text : string) : bool :=
  let content := strip (lower text) in
  bool_decide (content = "/test bienvenida") || bool_decide (content = "test bienvenida")
  || bool_decide (content = "/test despedida") || bool_decide (content = "test despedida").


(** A message the ticket restriction removes. *)
Definition removed_from_ticket (d : disk) (m : incoming) : bool :=
  match in_channel_name m with
  | Some name =>
      startswith name ticket_prefix
      && negb (is_bot (in_author m))
      && negb (has_required_role (in_author m))
      && match read_file (tickets_file d) ≫= (fun data => doc_tickets data !! in_channel m) with
         | Some ticket_info => bool_decide (user_id (in_author m) ≠ t_creator_id ticket_info)
         | None => false
         end
  | None => false
  end.

(** A message that reaches the help counter and is counted there. *)
Definition counted_for_help (cfg : config) (d : disk) (m : incoming) : bool :=
  negb (is_bot (in_author m))
  && negb (is_test_command (in_content m))
  && negb (bool_decide (in_channel m = CHANNEL_ID cfg))
  && negb (removed_from_ticket d m)
  && negb (startswith (in_content m) "/")
  && bool_decide (is_Some (in_channel_name m)).

(** [accept = true] is [/suggest accept], [false] is [/suggest deny]. *)
Definition resolve (accept : bool) :=
  if accept then suggest_accept else suggest_deny.

Definition accepted_reply (accept : bool) : suggest_reply :=
  if accept then SugerenciaAceptada else SugerenciaRechazada.

(** A save that never exposes a partly written file: afterwards the
    path holds the previous document or the new one. *)
Definition keeps_a_snapshot {A} (before after : file A) (new : A) : Prop :=
  after = before \/ after = Document new.

(** A save that writes into the target itself. *)
Definition written_in_place {A} (io : write_outcome) (before after : file A)
    (new : A) : Prop :=
  match io with
  | Written => after = Document new
  | OpenFailed => after = before
  | Interrupted => after = Truncated
  end.

(** What the specification asks of the handlers of one channel, whatever
    their interleaving: once all of them have finished, the channel holds
    one more reminder of the bot per full threshold of messages. *)
Definition fires_once_per_threshold (cfg : config) (ch : Z) (b : bot) (d : disk)
    (w : world) (schedule : list Interleaving.event) : Prop :=
  let s := Interleaving.run cfg ch (Interleaving.start b d w) schedule in
  Interleaving.st_waiting s = 0%nat ->
  exists sent,
    messages_of (Interleaving.st_world s) ch = messages_of w ch ++ sent
    /\ Forall (fun p => snd p = Message (w_me w) (REMINDER_MESSAGE cfg) [] [] None)
              sent
    /\ Z.of_nat (length sent)
       = Z.of_nat (Interleaving.arrivals schedule) / MESSAGE_THRESHOLD cfg.

(** What the specification asks of the help counter: a message of a
    member that does not begin with the command prefix is counted,
    wherever it is posted, and the prompt goes out exactly when the
    count reaches the threshold. *)
Definition help_counts_message (cfg : config) (io : write_outcome) (b : bot)
    (d : disk) (w : world) (m : incoming) : Prop :=
  is_bot (in_author m) = false ->
  startswith (in_content m) "/" = false ->
  let reached := help_message_threshold b <=? help_message_counter b + 1 in
  forall b' d' w' o,
    on_message cfg io b d w m = (b', d', w', o) ->
    help_message_counter b' = (if reached then 0 else help_message_counter b + 1)
    /\ (o = Forwarded true <-> reached = true).

(** What the specification asks of a second resolution of the same
    suggestion: it is refused, and the stored record stays as the first
    resolution wrote it. *)
Definition second_resolve_is_refused (accept1 accept2 : bool) (now1 now2 : clock)
    (d : disk) (w : world) (i1 i2 : interaction) (message_id : Z) : Prop :=
  forall d1 w1 d2 w2 r2,
    resolve accept1 Written now1 d w i1 message_id = (d1, w1, accepted_reply accept1) ->
    resolve accept2 Written now2 d1 w1 i2 message_id = (d2, w2, r2) ->
    r2 <> accepted_reply accept2
    /\ load_suggestions d2 !! message_id = load_suggestions d1 !! message_id.

(** ** Sample data *)

Definition ana : member := Member 1 "ana" "Ana" false ["Gerente"].
Definition eva : member := Member 3 "eva" "Eva" false ["ğŸ‘‘ Subgerente"].
Definition luis : member := Member 2 "luis" "Luis" false [].
Definition marta : member := Member 4 "marta" "Marta" false [].
Definition vanilla : member := Member 99 "vanilla" "Vanilla" true [].

Definition no_files : disk := Disk Missing Missing Missing Missing.
Definition monday : clock := Clock "2024-01-01T10:00:00" 1704103200.
Definition tuesday : clock := Clock "2024-01-02T10:00:00" 1704189600.

(** A guild with a general channel (5) and the suggestions channel (7),
    and no results channel. *)
Definition small_guild : world :=
  World (<[5 := Channel "general" "" [] []]>
           (<[7 := Channel "sugerencias" "" [] []]> ∅))
        ["Gerente"] vanilla 1000.

Definition two_messages : config := Config 7 2 "recordatorio".

(** The guild after [luis] sent a suggestion in channel 7: the card is
    message 1000. *)
Definition one_suggestion : bot * disk * world * suggest_reply :=
  suggest_create two_messages Written monday (init no_files) no_files small_guild
                 (Interaction luis 7 "sugerencias") "mas canales de voz".

Definition one_suggestion_disk : disk := snd (fst (fst one_suggestion)).
Definition one_suggestion_world : world := snd (fst one_suggestion).

(** The guild after [luis] opened a ticket: its channel is 1000. *)
Definition one_ticket : bot * disk * world * ticket_reply :=
  create_ticket Written monday (init no_files) no_files small_guild
                (Interaction luis 5 "general") "no puedo entrar".

Definition one_ticket_bot : bot := fst (fst (fst one_ticket)).
Definition one_ticket_disk : disk := snd (fst (fst one_ticket)).
Definition one_ticket_world : world := snd (fst one_ticket).

(** The same guild with the results channel, and the same suggestion. *)
Definition guild_with_results : world :=
  World (<[suggestions_results_channel_id := Channel "resultados" "" [] []]>
           (w_channels small_guild))
        ["Gerente"] vanilla 1000.

Definition posted_suggestion : bot * disk * world * suggest_reply :=
  suggest_create two_messages Written monday (init no_files) no_files
                 guild_with_results (Interaction luis 7 "sugerencias")
                 "mas canales de voz".

Definition posted_suggestion_disk : disk := snd (fst (fst posted_suggestion)).
Definition posted_suggestion_world : world := snd (fst posted_suggestion).

(** ** Further functions of [bot.py], [config.py] and [main.py] *)

(** [get_counter] *)
Definition get_counter (b : bot) (channel_id : Z) : Z :=
  default 0 (message_counters b !! channel_id).

(** [reset_counter]. The test [if channel_id:] fails for [None] and for
    the identifier 0, and both reset every counter. *)
Definition reset_counter (io : write_outcome) (b : bot) (d : disk)
    (channel_id : option Z) : bot * disk :=
  let reset_all :=
    let b := set_message_counters b ∅ in
    (b, save_counters io b d) in
  match channel_id with
  | Some ch =>
      if bool_decide (ch = 0) then reset_all
      else
        match message_counters b !! ch with
        | Some _ =>
            let b := set_message_counters b (<[ch := 0]> (message_counters b)) in
            (b, save_counters io b d)
        | None => (b, d)
        end
  | None => reset_all
  end.

(** [config.py] and the start of [main.py], after the environment was
    read: a variable that is not set leaves [None]. *)
Module ConfigFile.

Record Config := {
  BOT_TOKEN : option string;
  CHANNEL_ID : option Z;
  MESSAGE_THRESHOLD : Z;
  REMINDER_MESSAGE : string;
}.

(** [Config.validate] *)
Definition validate (c : Config) : list string :=
  (if bool_decide (BOT_TOKEN c = None \/ BOT_TOKEN c = Some "")
   then ["BOT_TOKEN is required"] else [])
  ++ (if bool_decide (CHANNEL_ID c = None \/ CHANNEL_ID c = Some 0)
      then ["CHANNEL_ID is required"] else [])
  ++ (if MESSAGE_THRESHOLD c <=? 0
      then ["MESSAGE_THRESHOLD must be greater than 0"] else []).

End ConfigFile.

(** [main]: the configuration the bot is started with, [None] when
    [main] returns before [ReminderBot(config)]. *)
Definition main (c : ConfigFile.Config) : option config :=
  match ConfigFile.BOT_TOKEN c, ConfigFile.CHANNEL_ID c with
  | Some token, Some channel_id =>
      if bool_decide (token = "") then None
      else if bool_decide (channel_id = 0) then None
      else Some (Config channel_id (ConfigFile.MESSAGE_THRESHOLD c)
                        (ConfigFile.REMINDER_MESSAGE c))
  | _, _ => None
  end.

(** ** Further vocabulary *)

(** The tiers in order of severity. *)
Definition rank (e : escalation) : nat :=
  match e with
  | NoEscalation => 0
  | Warning => 1
  | TerminationRisk => 2
  | DirectTerminationRisk => 3
  end.

(** The counters a restart would find are the ones the bot holds. *)
Definition counters_on_disk (b : bot) (d : disk) : Prop :=
  message_counters (init d) = message_counters b.

(** [fetch_message] on the channel with that identifier. *)
Definition fetch (w : world) (ch mid : Z) : option message :=
  get_channel w ch ≫= (fun c => fetch_message c mid).

(** No message of the channel carries the identifier the platform hands
    out next. *)
Definition next_id_is_new (w : world) (ch : Z) : Prop :=
  Forall (fun p => fst p <> w_next_id w) (messages_of w ch).

(** * Properties *)

(** ** Messages of the guild *)

Section GuildMessages.

Lemma messages_of_post (w : world) (ch : Z) (m : message) (k : Z) :
  messages_of (fst (post w ch m)) k
  = messages_of w k
    ++ (if bool_decide (ch = k /\ is_Some (get_channel w k))
        then [(w_next_id w, m)] else []).
Proof.
  unfold messages_of, get_channel, post. simpl. rewrite lookup_alter.
  destruct (decide (ch = k)) as [-> | Hne].
  - destruct (w_channels w !! k) as [c |] eqn:E; simpl.
    + rewrite bool_decide_eq_true_2 by (split; [reflexivity | eauto]). reflexivity.
    + rewrite bool_decide_eq_false_2 by (intros [_ [? ?]]; discriminate).
      reflexivity.
  - rewrite bool_decide_eq_false_2 by (intros [? _]; congruence).
    rewrite app_nil_r. reflexivity.
Qed.

Lemma messages_of_send_reminder (cfg : config) (w : world) (ch k : Z) :
  messages_of (send_reminder cfg w ch) k
  = messages_of w k
    ++ (if bool_decide (ch = k /\ is_Some (get_channel w k))
        then [(w_next_id w, Message (w_me w) (REMINDER_MESSAGE cfg) [] [] None)]
        else []).
Proof. unfold send_reminder, send. apply messages_of_post. Qed.

Lemma post_keeps_channels (w : world) (ch : Z) (m : message) (k : Z) :
  is_Some (get_channel (fst (post w ch m)) k) <-> is_Some (get_channel w k).
Proof.
  unfold get_channel, post. simpl. rewrite lookup_alter.
  destruct (decide (ch = k)) as [-> | Hne]; [| reflexivity].
  destruct (w_channels w !! k); simpl; split; intros [x E]; eauto; discriminate.
Qed.

End GuildMessages.

(** ** Strike ledger *)

Section StrikePolicy.

(** C4. The escalation announced by [check_strike_limits] is the one
    the policy prescribes for the three counts, most severe first:
    one grave strike is a direct termination risk; otherwise five
    leves or three moderados are a termination risk; otherwise three
    leves or two moderados are a warning; otherwise there is none.
    In particular a single grave strike gives the direct termination
    risk, three leves a warning and two leves nothing. *)
Theorem check_strike_limits_policy :
  (forall c : strike_counts,
      tier (check_strike_limits c)
      = Some (escalation_spec (leve c) (moderado c) (grave c)))
  /\ tier (check_strike_limits (Counts 0 0 1)) = Some DirectTerminationRisk
  /\ tier (check_strike_limits (Counts 3 0 0)) = Some Warning
  /\ tier (check_strike_limits (Counts 2 0 0)) = Some NoEscalation.
Proof.
  split; [| repeat split; reflexivity].
  intros [l m g]. unfold check_strike_limits, escalation_spec. simpl.
  destruct (1 <=? g); [reflexivity |].
  destruct (5 <=? l); [reflexivity |].
  destruct (3 <=? m); [reflexivity |].
  destruct (3 <=? l); [reflexivity |].
  destruct (2 <=? m); reflexivity.
Qed.

End StrikePolicy.

Section StrikeCounts.

Lemma count_one_recognized (c : strike_counts) (s : strike) :
  recognized s ->
  exists c', count_one c s = Some c' /\ total c' = total c + 1.
Proof.
  intros [H | [H | H]]; unfold count_one; rewrite H; simpl;
    eexists; (split; [reflexivity |]); unfold total; simpl; lia.
Qed.

Lemma count_one_unknown (c : strike_counts) (s : strike) :
  ~ recognized s -> count_one c s = None.
Proof.
  intros H. unfold count_one, recognized in *.
  repeat case_bool_decide; tauto.
Qed.

Lemma count_loop_recognized (l : list strike) :
  forall c, Forall recognized l ->
  exists c', count_loop c l = Some c' /\ total c' = total c + Z.of_nat (length l).
Proof.
  induction l as [| s l IH]; intros c Hall.
  - exists c. split; [reflexivity | simpl; lia].
  - inversion Hall as [| ? ? Hs Hl]; subst.
    destruct (count_one_recognized c s Hs) as (c1 & E1 & T1).
    destruct (IH c1 Hl) as (c2 & E2 & T2).
    exists c2. split.
    + simpl. rewrite E1. exact E2.
    + rewrite T2, T1. simpl length. lia.
Qed.

Lemma count_loop_unknown (l : list strike) :
  forall c, Exists (fun s => ~ recognized s) l -> count_loop c l = None.
Proof.
  induction l as [| s l IH]; intros c Hex.
  - inversion Hex.
  - simpl. inversion Hex as [? ? Hs | ? ? Hl]; subst.
    + rewrite (count_one_unknown c s Hs). reflexivity.
    + destruct (count_one c s); [apply IH; exact Hl | reflexivity].
Qed.

(** C10. On a list whose entries all carry one of the three severities
    [count_strikes] returns counts that add up to the length of the
    list; every entry written by [_add_strike] carries one of them; an
    entry with another severity makes the count fail (the [KeyError]). *)
Theorem count_strikes_total (user_strikes : list strike) :
  (Forall recognized user_strikes ->
   exists c, count_strikes user_strikes = Some c
             /\ total c = Z.of_nat (length user_strikes))
  /\ (forall t reason today who,
         recognized (Strike (severity_name t) reason today who))
  /\ (Exists (fun s => ~ recognized s) user_strikes ->
      count_strikes user_strikes = None).
Proof.
  repeat split.
  - intros Hall.
    destruct (count_loop_recognized user_strikes (Counts 0 0 0) Hall) as (c & E & T).
    exists c. split; [exact E | rewrite T; reflexivity].
  - intros [] ? ? ?; unfold recognized; simpl; auto.
  - apply count_loop_unknown.
Qed.

Lemma count_strikes_total_witness :
  (exists c, count_strikes [Strike "leve" "a" "d" "x"; Strike "grave" "b" "d" "x"] = Some c
             /\ total c = 2)
  /\ count_strikes [Strike "leve" "a" "d" "x"; Strike "severo" "b" "d" "x"] = None.
Proof.
  split.
  - apply (count_strikes_total [Strike "leve" "a" "d" "x"; Strike "grave" "b" "d" "x"]).
    constructor; [left; reflexivity |].
    constructor; [right; right; reflexivity | constructor].
  - apply (count_strikes_total [Strike "leve" "a" "d" "x"; Strike "severo" "b" "d" "x"]).
    apply Exists_cons_tl, Exists_cons_hd.
    unfold recognized; simpl. intros [H | [H | H]]; discriminate H.
Defined.

End StrikeCounts.

Section StrikeLedger.

Lemma entries_insert_eq (data : gmap Z (list strike)) (uid : Z) (l : list strike) :
  entries (<[uid := l]> data) uid = l.
Proof. unfold entries. rewrite lookup_insert_eq. reflexivity. Qed.

Lemma pop_snoc (l : list strike) (s : strike) : pop (l ++ [s]) = Some (l, s).
Proof.
  unfold pop. rewrite last_snoc. rewrite removelast_last. reflexivity.
Qed.

Lemma count_strikes_single (t : severity) (reason today who : string) :
  exists c, count_strikes [Strike (severity_name t) reason today who] = Some c.
Proof. destruct t; eexists; reflexivity. Qed.

(** C8. On a ledger where the user has no entries, a strike added by
    [/strike add] and then taken back by [/strike remove] leaves the
    user with no entries again: the removal pops exactly the entry
    that was appended, and the other users are untouched. On a user
    with no entries [/strike remove] answers that there is nothing to
    remove and writes nothing. *)
Theorem add_then_remove_restores_empty
    (today : string) (i1 i2 : interaction) (f : file (gmap Z (list strike)))
    (usuario : member) (t : severity) (reason : string) :
  has_required_role (i_user i1) = true ->
  has_required_role (i_user i2) = true ->
  reason <> "" ->
  entries (load_strikes f) (user_id usuario) = [] ->
  let added := Strike (severity_name t) reason today (display_name (i_user i1)) in
  let after_add :=
    strike_command Written today i1 f (Add (Some t) (Some reason)) usuario in
  let after_remove :=
    strike_command Written today i2 (fst after_add) Remove usuario in
  (exists warning, snd after_add = StrikeAgregado added warning)
  /\ entries (load_strikes (fst after_add)) (user_id usuario) = [added]
  /\ snd after_remove = StrikeRemovido added
  /\ entries (load_strikes (fst after_remove)) (user_id usuario) = []
  /\ (forall other, other <> user_id usuario ->
        load_strikes (fst after_remove) !! other = load_strikes f !! other)
  /\ (forall io, strike_command io today i2 f Remove usuario
                 = (f, SinStrikesParaRemover)).
Proof.
  intros Hrole1 Hrole2 Hreason Hempty added after_add after_remove.
  assert (Eadd : after_add
                 = (Document (<[user_id usuario := [added]]> (load_strikes f)),
                    StrikeAgregado added
                      (default None (check_strike_limits <$> count_strikes [added])))).
  { unfold after_add, strike_command, _add_strike. rewrite Hrole1. simpl.
    rewrite bool_decide_eq_false_2 by exact Hreason.
    rewrite entries_insert_eq, Hempty. simpl app.
    destruct (count_strikes_single t reason today (display_name (i_user i1)))
      as (c & Ec).
    fold added in Ec |- *. rewrite Ec. reflexivity. }
  assert (Eremove : after_remove
                    = (Document (<[user_id usuario := []]>
                                   (<[user_id usuario := [added]]> (load_strikes f))),
                       StrikeRemovido added)).
  { unfold after_remove. rewrite Eadd. unfold strike_command, _remove_strike.
    rewrite Hrole2. simpl. unfold load_strikes at 1 2 3. simpl.
    rewrite entries_insert_eq. change [added] with ([] ++ [added]).
    rewrite pop_snoc. reflexivity. }
  rewrite Eadd, Eremove. simpl. repeat split.
  - eexists. reflexivity.
  - unfold load_strikes at 1. simpl. apply entries_insert_eq.
  - unfold load_strikes at 1. simpl. apply entries_insert_eq.
  - intros other Hother. unfold load_strikes at 1. simpl.
    rewrite !lookup_insert_ne by congruence. reflexivity.
  - intros io. unfold strike_command, _remove_strike. rewrite Hrole2. simpl.
    rewrite Hempty. reflexivity.
Qed.

Lemma add_then_remove_restores_empty_witness :
  let after_add :=
    strike_command Written "2024-01-01" (Interaction ana 5 "general") Missing
                   (Add (Some Leve) (Some "spam")) luis in
  let after_remove :=
    strike_command Written "2024-01-01" (Interaction eva 5 "general")
                   (fst after_add) Remove luis in
  entries (load_strikes (fst after_add)) 2 = [Strike "leve" "spam" "2024-01-01" "Ana"]
  /\ snd after_remove = StrikeRemovido (Strike "leve" "spam" "2024-01-01" "Ana")
  /\ entries (load_strikes (fst after_remove)) 2 = []
  /\ strike_command Interrupted "2024-01-01" (Interaction eva 5 "general") Missing
                    Remove luis
     = (Missing, SinStrikesParaRemover).
Proof.
  destruct (add_then_remove_restores_empty "2024-01-01" (Interaction ana 5 "general")
              (Interaction eva 5 "general") Missing luis Leve "spam")
    as (_ & Hadd & Hremoved & Hempty & _ & Hnone).
  - reflexivity.
  - reflexivity.
  - discriminate.
  - reflexivity.
  - intros after_add after_remove.
    exact (conj Hadd (conj Hremoved (conj Hempty (Hnone Interrupted)))).
Defined.

End StrikeLedger.

(** ** Persisted store *)

Section PersistedStore.

(** C2, as stated, fails: a save of the counters that stops after
    [open(..., 'w')] leaves neither the previous document nor the new
    one, and the next start finds no counters. *)
Lemma interrupted_save_loses_snapshot :
  let b := set_message_counters (init no_files) {[7 := 2]} in
  let d := set_counter_file no_files (Document {[7 := 1]}) in
  let d' := save_counters Interrupted b d in
  ~ keeps_a_snapshot (counter_file d) (counter_file d') (message_counters b)
  /\ message_counters (init d) = {[7 := 1]}
  /\ message_counters (init d') = ∅.
Proof.
  repeat split.
  intros [H | H]; discriminate H.
Qed.

(** C2, amended. Each of the four saves opens its own file for writing
    and dumps the new document into it, with no temporary file: a save
    that runs to the end leaves the new document, a save whose open
    fails leaves the file as it was, and a save stopped after the open
    leaves a truncated file, which the loaders answer with the empty
    default. No save touches the file of another record set. *)
Theorem saves_write_in_place (io : write_outcome) (b : bot) (d : disk)
    (strikes_data : gmap Z (list strike)) (suggestions_data : gmap Z suggestion)
    (tickets_data : gmap Z ticket) :
  (written_in_place io (counter_file d) (counter_file (save_counters io b d))
                    (message_counters b)
   /\ strikes_file (save_counters io b d) = strikes_file d
   /\ suggestions_file (save_counters io b d) = suggestions_file d
   /\ tickets_file (save_counters io b d) = tickets_file d)
  /\ written_in_place io (strikes_file d) (save_strikes io (strikes_file d) strikes_data)
                      strikes_data
  /\ (written_in_place io (suggestions_file d)
                       (suggestions_file (save_suggestions io d suggestions_data))
                       suggestions_data
      /\ counter_file (save_suggestions io d suggestions_data) = counter_file d
      /\ strikes_file (save_suggestions io d suggestions_data) = strikes_file d
      /\ tickets_file (save_suggestions io d suggestions_data) = tickets_file d)
  /\ (written_in_place io (tickets_file d)
                       (tickets_file (save_tickets io b d tickets_data))
                       (TicketsDoc (ticket_counter b) tickets_data)
      /\ counter_file (save_tickets io b d tickets_data) = counter_file d
      /\ strikes_file (save_tickets io b d tickets_data) = strikes_file d
      /\ suggestions_file (save_tickets io b d tickets_data) = suggestions_file d)
  /\ (message_counters (load_counters b (save_counters Interrupted b d)) = ∅
      /\ load_strikes (save_strikes Interrupted (strikes_file d) strikes_data) = ∅
      /\ load_suggestions (save_suggestions Interrupted d suggestions_data) = ∅
      /\ load_tickets b (save_tickets Interrupted b d tickets_data) = (b, ∅)).
Proof.
  destruct io; simpl; repeat split; reflexivity.
Qed.

End PersistedStore.

(** ** Message counters *)

Section MessageCounters.

Lemma is_test_command_false (text : string) :
  is_test_command text = false ->
  bool_decide (strip (lower text) = "/test bienvenida")
  || bool_decide (strip (lower text) = "test bienvenida") = false
  /\ bool_decide (strip (lower text) = "/test despedida")
     || bool_decide (strip (lower text) = "test despedida") = false.
Proof.
  unfold is_test_command. intros H.
  apply orb_false_iff in H as [H H4].
  apply orb_false_iff in H as [H H3].
  rewrite H, H3, H4. split; reflexivity.
Qed.





End MessageCounters.

Section InterleavedHandlers.
Import Interleaving.

(** A handler that runs alone is the counting block of [on_message]. *)
Lemma alone_is_count_block (cfg : config) (ch : Z) (s : state) :
  st_waiting s = 0%nat ->
  let s' := step cfg ch (step cfg ch s Arrive) Resume in
  let '(b, d, w, reminder) :=
    count_block cfg Written (st_bot s) (st_disk s) (st_world s) ch in
  st_bot s' = b /\ st_disk s' = d /\ st_world s' = w /\ st_waiting s' = 0%nat
  /\ st_fired s' = (st_fired s + if reminder then 1 else 0)%nat.
Proof.
  intros Hwait. unfold count_block, step.
  destruct (count_message cfg (st_bot s) ch) as [b reached].
  destruct reached; simpl; rewrite ?Hwait; simpl; repeat split; try reflexivity; lia.
Qed.

Lemma one_handler_alone (cfg : config) (ch : Z) (s : state) :
  st_waiting s = 0%nat ->
  let reached := MESSAGE_THRESHOLD cfg <=? counter_of ch s + 1 in
  let s' := step cfg ch (step cfg ch s Arrive) Resume in
  st_waiting s' = 0%nat
  /\ counter_of ch s' = (if reached then 0 else counter_of ch s + 1)
  /\ st_fired s' = (st_fired s + if reached then 1 else 0)%nat.
Proof.
  intros Hwait reached. subst reached. unfold step, count_message, counter_of.
  destruct (MESSAGE_THRESHOLD cfg <=? default 0 (message_counters (st_bot s) !! ch) + 1);
    simpl; rewrite ?Hwait; simpl; rewrite lookup_insert_eq; simpl;
    repeat split; lia.
Qed.

Lemma serial_run (cfg : config) (ch : Z) (n : nat) :
  forall s : state,
    0 < MESSAGE_THRESHOLD cfg ->
    st_waiting s = 0%nat ->
    0 <= counter_of ch s < MESSAGE_THRESHOLD cfg ->
    let s' := run cfg ch s (serial n) in
    st_waiting s' = 0%nat
    /\ Z.of_nat (st_fired s')
       = Z.of_nat (st_fired s) + (counter_of ch s + Z.of_nat n) / MESSAGE_THRESHOLD cfg
    /\ counter_of ch s' = (counter_of ch s + Z.of_nat n) mod MESSAGE_THRESHOLD cfg.
Proof.
  induction n as [| n IH]; intros s Hpos Hwait Hc.
  - simpl. rewrite Z.add_0_r.
    rewrite Z.div_small, Z.mod_small by lia. repeat split; lia.
  - change (run cfg ch s (serial (S n)))
      with (run cfg ch (step cfg ch (step cfg ch s Arrive) Resume) (serial n)).
    destruct (one_handler_alone cfg ch s Hwait) as (Hw1 & Hc1 & Hf1).
    set (s1 := step cfg ch (step cfg ch s Arrive) Resume) in *.
    destruct (Z.leb_spec (MESSAGE_THRESHOLD cfg) (counter_of ch s + 1)) as [Hle | Hlt].
    + assert (Hfull : counter_of ch s + 1 = MESSAGE_THRESHOLD cfg) by lia.
      destruct (IH s1 Hpos Hw1) as (Hw & Hf & Hm); [lia |].
      replace (counter_of ch s + Z.of_nat (S n))
        with (Z.of_nat n + 1 * MESSAGE_THRESHOLD cfg) by lia.
      rewrite Z.div_add, Z.mod_add by lia.
      rewrite Hc1, Z.add_0_l in Hf, Hm. cbv zeta.
      repeat split; [exact Hw | lia | exact Hm].
    + destruct (IH s1 Hpos Hw1) as (Hw & Hf & Hm); [lia |].
      replace (counter_of ch s + Z.of_nat (S n))
        with (counter_of ch s1 + Z.of_nat n) by lia.
      cbv zeta. repeat split; [exact Hw | lia | exact Hm].
Qed.

(** Every call of [send_reminder] that a step counts is one reminder of
    the bot appended to the channel, and a step appends nothing else. *)
Lemma step_fired_in_guild (cfg : config) (ch : Z) (s : state) (e : event) :
  is_Some (get_channel (st_world s) ch) ->
  let s' := step cfg ch s e in
  is_Some (get_channel (st_world s') ch)
  /\ w_me (st_world s') = w_me (st_world s)
  /\ exists sent,
       messages_of (st_world s') ch = messages_of (st_world s) ch ++ sent
       /\ Forall (fun p => snd p = Message (w_me (st_world s))
                                           (REMINDER_MESSAGE cfg) [] [] None) sent
       /\ st_fired s' = (st_fired s + length sent)%nat.
Proof.
  intros Hch. destruct e; unfold step.
  - destruct (count_message cfg (st_bot s) ch) as [b reached].
    destruct reached; simpl.
    + split; [apply post_keeps_channels; exact Hch |].
      split; [reflexivity |].
      exists [(w_next_id (st_world s),
               Message (w_me (st_world s)) (REMINDER_MESSAGE cfg) [] [] None)].
      rewrite messages_of_send_reminder.
      rewrite bool_decide_eq_true_2 by (split; [reflexivity | exact Hch]).
      split; [reflexivity |]. split; [| simpl; lia].
      constructor; [reflexivity | constructor].
    + split; [exact Hch |]. split; [reflexivity |].
      exists []. rewrite app_nil_r. split; [reflexivity |].
      split; [constructor | simpl; lia].
  - destruct (st_waiting s); simpl;
      (split; [exact Hch |]; split; [reflexivity |];
       exists []; rewrite app_nil_r; split; [reflexivity |];
       split; [constructor | simpl; lia]).
Qed.

(** Under every schedule the reminders counted are the messages the
    channel gained, each a reminder of the bot. *)
Lemma run_fired_in_guild (cfg : config) (ch : Z) (schedule : list event) :
  forall s : state,
    is_Some (get_channel (st_world s) ch) ->
    let s' := run cfg ch s schedule in
    exists sent,
      messages_of (st_world s') ch = messages_of (st_world s) ch ++ sent
      /\ Forall (fun p => snd p = Message (w_me (st_world s))
                                          (REMINDER_MESSAGE cfg) [] [] None) sent
      /\ st_fired s' = (st_fired s + length sent)%nat.
Proof.
  induction schedule as [| e schedule IH]; intros s Hch.
  - exists []. simpl. rewrite app_nil_r. split; [reflexivity |].
    split; [constructor | lia].
  - destruct (step_fired_in_guild cfg ch s e Hch)
      as (Hch1 & Hme & sent1 & Hm1 & Hall1 & Hf1).
    destruct (IH (step cfg ch s e) Hch1) as (sent2 & Hm2 & Hall2 & Hf2).
    exists (sent1 ++ sent2). change (run cfg ch s (e :: schedule))
      with (run cfg ch (step cfg ch s e) schedule). cbv zeta.
    rewrite Hm2, Hm1, Hf2, Hf1, length_app, <- app_assoc.
    split; [reflexivity |]. split; [| lia].
    apply Forall_app. split; [exact Hall1 |].
    rewrite Hme in Hall2. exact Hall2.
Qed.

Lemma help_block_counted (b : bot) (w : world) (m : incoming) :
  startswith (in_content m) "/" = false ->
  is_bot (in_author m) = false ->
  is_Some (in_channel_name m) ->
  let reached := help_message_threshold b <=? help_message_counter b + 1 in
  help_block b w m
  = (set_help_message_counter b (if reached then 0 else help_message_counter b + 1),
     if reached then fst (send w (in_channel m) help_message []) else w,
     reached).
Proof.
  intros Hslash Hbot Hname reached. unfold help_block.
  rewrite Hslash, Hbot, (bool_decide_eq_true_2 _ Hname). simpl.
  fold reached. destruct reached; reflexivity.
Qed.

(** The help counter of the same handler does not share the defect: it
    is set back before the prompt is awaited, and under every
    interleaving the channel gains one prompt per full threshold of
    counted messages. *)
Lemma help_handlers_fire_once_per_threshold (m : incoming)
    (schedule : list event) :
  startswith (in_content m) "/" = false ->
  is_bot (in_author m) = false ->
  is_Some (in_channel_name m) ->
  forall s : state,
    0 <= help_message_counter (st_bot s) < help_message_threshold (st_bot s) ->
    is_Some (get_channel (st_world s) (in_channel m)) ->
    let s' := run_help m s schedule in
    let T := help_message_threshold (st_bot s) in
    let n := help_message_counter (st_bot s) + Z.of_nat (arrivals schedule) in
    help_message_threshold (st_bot s') = T
    /\ help_message_counter (st_bot s') = n mod T
    /\ exists sent,
         messages_of (st_world s') (in_channel m)
         = messages_of (st_world s) (in_channel m) ++ sent
         /\ Forall (fun p => snd p = Message (w_me (st_world s)) help_message
                                             [] [] None) sent
         /\ Z.of_nat (length sent) = n / T.
Proof.
  intros Hslash Hbot Hname.
  induction schedule as [| e schedule IH]; intros s Hc Hch.
  - cbv zeta. change (arrivals []) with 0%nat. simpl Z.of_nat.
    rewrite Z.add_0_r, Z.mod_small, Z.div_small by lia.
    split; [reflexivity |]. split; [reflexivity |].
    exists []. rewrite app_nil_r. split; [reflexivity |].
    split; [constructor | reflexivity].
  - change (run_help m s (e :: schedule))
      with (run_help m (step_help m s e) schedule).
    destruct e.
    + change (arrivals (Arrive :: schedule)) with (S (arrivals schedule)).
      unfold step_help.
      rewrite (help_block_counted (st_bot s) (st_world s) m Hslash Hbot Hname).
      destruct (Z.leb_spec (help_message_threshold (st_bot s))
                  (help_message_counter (st_bot s) + 1)) as [Hle | Hlt].
      * set (s1 := State (set_help_message_counter (st_bot s) 0) (st_disk s)
                     (fst (send (st_world s) (in_channel m) help_message []))
                     (S (st_waiting s)) (S (st_fired s))).
        destruct (IH s1) as (Ht & Hn & sent & Hsent & Hall & Hlen).
        { simpl. lia. }
        { simpl. apply post_keeps_channels. exact Hch. }
        subst s1. cbn [st_world st_bot] in Ht, Hn, Hlen, Hsent, Hall.
        simpl in Ht, Hn, Hlen. rewrite Z.add_0_l in Hn, Hlen. cbv zeta.
        replace (help_message_counter (st_bot s) + Z.of_nat (S (arrivals schedule)))
          with (Z.of_nat (arrivals schedule)
                + 1 * help_message_threshold (st_bot s)) by lia.
        rewrite Z.div_add, Z.mod_add by lia.
        split; [exact Ht |]. split; [exact Hn |].
        exists ((w_next_id (st_world s),
                 Message (w_me (st_world s)) help_message [] [] None) :: sent).
        split.
        { rewrite Hsent. unfold send. rewrite messages_of_post.
          rewrite bool_decide_eq_true_2 by (split; [reflexivity | exact Hch]).
          rewrite <- app_assoc. reflexivity. }
        split; [constructor; [reflexivity | exact Hall] |].
        simpl length. lia.
      * set (s1 := State (set_help_message_counter (st_bot s)
                            (help_message_counter (st_bot s) + 1)) (st_disk s)
                     (st_world s) (st_waiting s) (st_fired s)).
        destruct (IH s1) as (Ht & Hn & sent & Hsent & Hall & Hlen).
        { simpl. lia. }
        { exact Hch. }
        subst s1. cbn [st_world st_bot] in Ht, Hn, Hlen, Hsent, Hall.
        simpl in Ht, Hn, Hlen. cbv zeta.
        replace (help_message_counter (st_bot s) + Z.of_nat (S (arrivals schedule)))
          with (help_message_counter (st_bot s) + 1
                + Z.of_nat (arrivals schedule)) by lia.
        split; [exact Ht |]. split; [exact Hn |].
        exists sent. split; [exact Hsent |]. split; [exact Hall | exact Hlen].
    + change (arrivals (Resume :: schedule)) with (arrivals schedule).
      assert (Hsame : st_bot (step_help m s Resume) = st_bot s
                      /\ st_world (step_help m s Resume) = st_world s).
      { unfold step_help. destruct (st_waiting s); split; reflexivity. }
      destruct Hsame as [Eb Ew].
      destruct (IH (step_help m s Resume)) as (Ht & Hn & sent & Hsent & Hall & Hlen).
      { rewrite Eb. exact Hc. }
      { rewrite Ew. exact Hch. }
      rewrite Eb in Ht, Hn, Hlen. rewrite Ew in Hsent, Hall. cbv zeta.
      split; [exact Ht |]. split; [exact Hn |].
      exists sent. split; [exact Hsent |]. split; [exact Hall | exact Hlen].
Qed.

End InterleavedHandlers.

Section ReminderCount.
Import Interleaving.

(** C5. The reminder of the monitored channel is not sent once per
    threshold of messages under every interleaving of the handlers:
    [on_message] sets the counter back only after [send_reminder] came
    back, so a message that arrives meanwhile finds the counter at the
    threshold and sends the reminder again. With a threshold of two,
    three messages of which the third arrives while the handler of the
    second still waits in [send_reminder] leave two reminders of the bot
    in the channel, where three messages fill the threshold once; all
    handlers have finished and the counter is at zero. *)
Theorem overlapping_handlers_fire_twice :
  let schedule := [Arrive; Arrive; Arrive; Resume; Resume] in
  let s := run two_messages 7 (start (init no_files) no_files small_guild)
               schedule in
  arrivals schedule = 3%nat
  /\ Z.of_nat (arrivals schedule) / MESSAGE_THRESHOLD two_messages = 1
  /\ st_waiting s = 0%nat
  /\ messages_of small_guild 7 = []
  /\ messages_of (st_world s) 7
     = [(1000, Message vanilla "recordatorio" [] [] None);
        (1001, Message vanilla "recordatorio" [] [] None)]
  /\ counter_of 7 s = 0
  /\ ~ fires_once_per_threshold two_messages 7 (init no_files) no_files
         small_guild schedule.
Proof.
  intros schedule s.
  assert (Hsent : messages_of (st_world s) 7
                  = [(1000, Message vanilla "recordatorio" [] [] None);
                     (1001, Message vanilla "recordatorio" [] [] None)])
    by reflexivity.
  split; [reflexivity |]. split; [reflexivity |]. split; [reflexivity |].
  split; [reflexivity |]. split; [exact Hsent |]. split; [reflexivity |].
  unfold fires_once_per_threshold. intros H.
  destruct (H eq_refl) as (sent & Hm & _ & Hlen).
  fold schedule in Hm. fold s in Hm. rewrite Hsent in Hm.
  change (messages_of small_guild 7) with (@nil (Z * message)) in Hm.
  simpl in Hm. subst sent. vm_compute in Hlen. discriminate Hlen.
Qed.

(** When the handlers of one channel run one after the other, each to
    its end before the next starts, [n] messages on a counter that
    starts at zero send the reminder n / T times (the quotient rounded
    down) for a positive threshold T, each time as one message of the
    bot appended to the channel, and leave the counter at the
    remainder. Nothing in [on_message] serialises the handlers. *)
Lemma serial_handlers_fire_once_per_threshold
    (cfg : config) (ch : Z) (b : bot) (d : disk) (w : world) (n : nat) :
  0 < MESSAGE_THRESHOLD cfg ->
  default 0 (message_counters b !! ch) = 0 ->
  is_Some (get_channel w ch) ->
  let s := run cfg ch (start b d w) (serial n) in
  arrivals (serial n) = n
  /\ st_waiting s = 0%nat
  /\ Z.of_nat (st_fired s) = Z.of_nat n / MESSAGE_THRESHOLD cfg
  /\ default 0 (message_counters (st_bot s) !! ch)
     = Z.of_nat n mod MESSAGE_THRESHOLD cfg
  /\ fires_once_per_threshold cfg ch b d w (serial n).
Proof.
  intros Hpos Hzero Hch s.
  assert (Harr : arrivals (serial n) = n).
  { unfold arrivals. induction n as [| k IH]; simpl; [reflexivity | ].
    f_equal. apply IH. }
  destruct (serial_run cfg ch n (start b d w) Hpos eq_refl) as (Hw & Hf & Hm).
  { unfold counter_of. simpl. rewrite Hzero. lia. }
  unfold counter_of in Hf, Hm. simpl in Hf, Hm. rewrite Hzero in Hf, Hm.
  simpl in Hf, Hm.
  assert (Hf' : Z.of_nat (st_fired s) = Z.of_nat n / MESSAGE_THRESHOLD cfg)
    by exact Hf.
  repeat split; [exact Harr | exact Hw | exact Hf | exact Hm |].
  unfold fires_once_per_threshold. intros _. rewrite Harr.
  destruct (run_fired_in_guild cfg ch (serial n) (start b d w) Hch)
    as (sent & Hsent & Hall & Hfired).
  exists sent. split; [exact Hsent |]. split; [exact Hall |].
  change (st_fired s = (0 + length sent)%nat) in Hfired. lia.
Qed.

Lemma serial_handlers_fire_once_per_threshold_witness :
  let s := run two_messages 7 (start (init no_files) no_files small_guild)
               (serial 5) in
  st_waiting s = 0%nat /\ Z.of_nat (st_fired s) = 5 / 2
  /\ fires_once_per_threshold two_messages 7 (init no_files) no_files small_guild
       (serial 5).
Proof.
  destruct (serial_handlers_fire_once_per_threshold two_messages 7 (init no_files)
              no_files small_guild 5) as (_ & Hw & Hf & _ & Hspec).
  - reflexivity.
  - reflexivity.
  - vm_compute. eauto.
  - exact (conj Hw (conj Hf Hspec)).
Defined.

End ReminderCount.

(** ** Help counter *)

Section HelpCounter.

Lemma ticket_gate_passes (b : bot) (d : disk) (w : world) (m : incoming) :
  removed_from_ticket d m = false ->
  exists b1, ticket_gate b d w m = (b1, None)
             /\ help_message_counter b1 = help_message_counter b
             /\ help_message_threshold b1 = help_message_threshold b.
Proof.
  unfold removed_from_ticket, ticket_gate, load_tickets.
  destruct (in_channel_name m) as [name |]; [| intros _; exists b; auto].
  destruct (startswith name ticket_prefix && negb (is_bot (in_author m))
            && negb (has_required_role (in_author m)));
    [| intros _; exists b; auto].
  rewrite andb_true_l.
  destruct (read_file (tickets_file d)) as [data |]; simpl.
  - destruct (doc_tickets data !! in_channel m) as [ticket_info |].
    + intros ->. eexists. repeat split.
    + intros _. eexists. repeat split.
  - intros _. rewrite lookup_empty. exists b. auto.
Qed.

(** A message in the monitored suggestions channel is counted for the
    reminder of that channel and does not reach the help counter. *)
Lemma suggestions_channel_message_skips_help_counter :
  let '(b', _, _, o) :=
    on_message two_messages Written (init no_files) no_files small_guild
               (Incoming 500 7 (Some "sugerencias") ana "hola") in
  o = Counted false /\ help_message_counter b' = 0.
Proof. vm_compute. split; reflexivity. Qed.

(** C7, as stated, fails: in the channel of a ticket the message of a
    member who is neither its creator nor an administrator is removed
    by the ticket restriction, and it is not counted: the help counter
    stays at zero where one is asked for. *)
Lemma removed_ticket_message_not_counted_for_help :
  ~ help_counts_message two_messages Written one_ticket_bot one_ticket_disk
      one_ticket_world
      (Incoming 2000 1000 (Some (ticket_prefix +:+ "0001")) marta "hola").
Proof.
  unfold help_counts_message. intros H.
  specialize (H eq_refl eq_refl). cbv zeta in H.
  set (r := on_message two_messages Written one_ticket_bot one_ticket_disk
              one_ticket_world
              (Incoming 2000 1000 (Some (ticket_prefix +:+ "0001")) marta "hola")) in H.
  destruct (H (fst (fst (fst r))) (snd (fst (fst r))) (snd (fst r)) (snd r))
    as [Hcount _].
  - vm_compute. reflexivity.
  - vm_compute in Hcount. discriminate Hcount.
Qed.

(** C7, amended. The help counter counts the messages that reach the
    end of [on_message]: written by a member, not one of the test
    commands, posted outside the monitored suggestions channel, not
    removed by the ticket restriction, not beginning with the command
    prefix, and in a channel that has a name. Each of them adds one to
    the counter; the prompt is sent, and the counter set back to zero,
    exactly when the new value reaches the threshold. The prompt is one
    message of the bot with the help text, appended to the channel of
    the message; below the threshold the guild is left as it was, and
    no other channel gains a message in either case. The files are not
    written. *)
Theorem help_counter_counts_forwarded_messages
    (cfg : config) (io : write_outcome) (b : bot) (d : disk) (w : world)
    (m : incoming) :
  counted_for_help cfg d m = true ->
  let reached := help_message_threshold b <=? help_message_counter b + 1 in
  exists b' w',
    on_message cfg io b d w m = (b', d, w', Forwarded reached)
    /\ help_message_counter b' = (if reached then 0 else help_message_counter b + 1)
    /\ help_message_threshold b' = help_message_threshold b
    /\ message_counters b' = message_counters b
    /\ (reached = false -> w' = w)
    /\ w' = (if reached then fst (send w (in_channel m) help_message []) else w)
    /\ (forall k,
          messages_of w' k
          = messages_of w k
            ++ (if reached
                   && bool_decide (in_channel m = k /\ is_Some (get_channel w k))
                then [(w_next_id w, Message (w_me w) help_message [] [] None)]
                else [])).
Proof.
  intros H reached. unfold counted_for_help in H.
  apply andb_true_iff in H as [H Hname].
  apply andb_true_iff in H as [H Hslash].
  apply andb_true_iff in H as [H Hticket].
  apply andb_true_iff in H as [H Hchannel].
  apply andb_true_iff in H as [Hbot Htest].
  apply negb_true_iff in Hbot, Htest, Hchannel, Hticket.
  apply is_test_command_false in Htest as [Hwelcome Hgoodbye].
  destruct (ticket_gate_passes b d w m Hticket) as (b1 & Egate & Ec & Et).
  unfold on_message. rewrite Hbot, Hwelcome, Hgoodbye, Hchannel, Egate.
  unfold help_block. rewrite Hslash, Hbot, Hname. simpl.
  rewrite Ec, Et. fold reached.
  assert (Hcounters : message_counters b1 = message_counters b).
  { revert Egate. unfold ticket_gate, load_tickets.
    repeat (case_match; simplify_eq; try reflexivity); intros; simplify_eq;
      reflexivity. }
  destruct reached; eexists _, _; (split; [reflexivity |]); simpl;
    (split; [reflexivity |]); (split; [exact Et |]);
    (split; [exact Hcounters |]).
  - split; [discriminate |]. split; [reflexivity |].
    intros k. unfold send. apply messages_of_post.
  - split; [reflexivity |]. split; [reflexivity |].
    intros k. rewrite app_nil_r. reflexivity.
Qed.

Lemma help_counter_counts_forwarded_messages_witness :
  exists b' w',
    on_message two_messages Written
               (set_help_message_counter (init no_files) 9) no_files small_guild
               (Incoming 500 5 (Some "general") luis "alguien sabe?")
    = (b', no_files, w', Forwarded true)
    /\ help_message_counter b' = 0
    /\ messages_of w' 5 = [(1000, Message vanilla help_message [] [] None)]
    /\ messages_of w' 7 = [].
Proof.
  destruct (help_counter_counts_forwarded_messages two_messages Written
              (set_help_message_counter (init no_files) 9) no_files small_guild
              (Incoming 500 5 (Some "general") luis "alguien sabe?"))
    as (b' & w' & E & Hc & _ & _ & _ & _ & Hguild).
  - reflexivity.
  - exists b', w'. exact (conj E (conj Hc (conj (Hguild 5) (Hguild 7)))).
Defined.

End HelpCounter.

(** ** Suggestions *)

Section SuggestionWorkflow.

Lemma find_after_filter (l : list (Z * message)) (mid : Z) :
  List.find (fun p => bool_decide (fst p = mid))
            (List.filter (fun p => negb (bool_decide (fst p = mid))) l) = None.
Proof.
  induction l as [| p l IH]; [reflexivity |].
  simpl. destruct (bool_decide (fst p = mid)) eqn:E; simpl.
  - exact IH.
  - rewrite E. exact IH.
Qed.

(** A deleted message cannot be fetched. *)
Lemma fetch_after_delete (w : world) (ch mid : Z) :
  get_channel (delete_message w ch mid) ch ≫= (fun c => fetch_message c mid) = None.
Proof.
  unfold get_channel, delete_message. simpl. rewrite lookup_alter_eq.
  destruct (w_channels w !! ch) as [c |]; [| reflexivity].
  simpl. unfold fetch_message. simpl. rewrite find_after_filter. reflexivity.
Qed.

(** C3, as stated, fails: where the results channel is missing the
    card stays in place, and a second resolution goes through like the
    first. Here [ana] accepts the suggestion and [eva] then denies it:
    the second command is answered as a success and the stored status
    turns from accepted to denied. *)
Lemma second_resolve_overwrites_first :
  ~ second_resolve_is_refused true false monday tuesday
      one_suggestion_disk one_suggestion_world
      (Interaction ana 7 "sugerencias") (Interaction eva 7 "sugerencias") 1000.
Proof.
  intros H.
  set (first := resolve true Written monday one_suggestion_disk one_suggestion_world
                  (Interaction ana 7 "sugerencias") 1000).
  set (second := resolve false Written tuesday (fst (fst first)) (snd (fst first))
                   (Interaction eva 7 "sugerencias") 1000).
  destruct (H (fst (fst first)) (snd (fst first))
              (fst (fst second)) (snd (fst second)) (snd second)) as [Hreply _].
  - vm_compute. reflexivity.
  - vm_compute. reflexivity.
  - apply Hreply. vm_compute. reflexivity.
Qed.

Lemma suggest_resolve_moved (v : verdict) (io : write_outcome) (now : clock)
    (d d1 : disk) (w w1 : world) (i : interaction) (message_id : Z) :
  is_Some (get_channel w suggestions_results_channel_id) ->
  v_reply v = SugerenciaAceptada \/ v_reply v = SugerenciaRechazada ->
  suggest_resolve v io now d w i message_id = (d1, w1, v_reply v) ->
  exists record record' w0,
    load_suggestions d !! message_id = Some record
    /\ s_channel_id record' = s_channel_id record
    /\ s_status record' = v_status v
    /\ s_reviewed_by record' = Some (user_id (i_user i))
    /\ s_reviewed_at record' = Some (iso now)
    /\ d1 = save_suggestions io d (<[message_id := record']> (load_suggestions d))
    /\ w1 = delete_message w0 (s_channel_id record) message_id.
Proof.
  intros [results Hresults] Hreply. unfold suggest_resolve.
  destruct (negb (has_required_role (i_user i)));
    [intros E; destruct Hreply as [Hv | Hv]; rewrite Hv in E; discriminate E |].
  destruct (load_suggestions d !! message_id) as [record |];
    [| intros E; destruct Hreply as [Hv | Hv]; rewrite Hv in E; discriminate E].
  destruct (get_channel w (s_channel_id record) ≫= _) as [message |];
    [| intros E; destruct Hreply as [Hv | Hv]; rewrite Hv in E; discriminate E].
  destruct (count_votes (msg_reactions message) 0 0) as [upvotes downvotes].
  destruct (msg_embeds message) as [| e rest];
    [intros E; destruct Hreply as [Hv | Hv]; rewrite Hv in E; discriminate E |].
  rewrite Hresults. intros E. injection E as <- <-.
  exists record,
    (Suggestion (s_user_id record) (s_user_name record) (s_suggestion record)
                (v_status v) (s_created_at record) (s_channel_id record)
                (Some (user_id (i_user i))) (Some (iso now)) (Some true)
                (Some (upvotes, downvotes))),
    (fst (send w suggestions_results_channel_id ""
               [reviewed_embed v now (i_user i) upvotes downvotes e])).
  repeat split.
Qed.

Lemma suggest_resolve_blocked (v : verdict) (io : write_outcome) (now : clock)
    (d : disk) (w : world) (i : interaction) (message_id : Z) :
  (forall record,
      load_suggestions d !! message_id = Some record ->
      get_channel w (s_channel_id record) ≫= (fun c => fetch_message c message_id)
      = None) ->
  exists r,
    suggest_resolve v io now d w i message_id = (d, w, r)
    /\ (r = NoTienesPermisos \/ r = SugerenciaNoEncontrada
        \/ r = MensajeOriginalNoEncontrado)
    /\ (has_required_role (i_user i) = true ->
        is_Some (load_suggestions d !! message_id) ->
        r = MensajeOriginalNoEncontrado).
Proof.
  intros Hgone. unfold suggest_resolve.
  destruct (has_required_role (i_user i)); simpl.
  - destruct (load_suggestions d !! message_id) as [record |].
    + rewrite (Hgone record eq_refl). eexists. repeat split; auto.
    + eexists. repeat split; auto. intros _ [? ?]. discriminate.
  - eexists. repeat split; auto. discriminate.
Qed.

Lemma save_open_failed (d : disk) (data : gmap Z suggestion) :
  save_suggestions OpenFailed d data = d.
Proof. destruct d. reflexivity. Qed.

(** C3, amended. The commands do not look at the stored status and
    have no reply for an already resolved suggestion; what stops a
    second resolution is that the first one moved the card. When the
    results channel is there, a resolution that went through has
    deleted the original message, and any later [/suggest accept] or
    [/suggest deny] on the same id changes neither the file nor the
    guild: it is answered with the missing permission, the unknown
    suggestion or the original message that cannot be found. When the
    first resolution was written, the record keeps its status,
    reviewer and time, and a reviewer with the role is told that the
    original message cannot be found. *)
Theorem moved_suggestion_is_not_resolved_again
    (accept1 accept2 : bool) (io1 io2 : write_outcome) (now1 now2 : clock)
    (d d1 : disk) (w w1 : world) (i1 i2 : interaction) (message_id : Z) :
  is_Some (get_channel w suggestions_results_channel_id) ->
  resolve accept1 io1 now1 d w i1 message_id = (d1, w1, accepted_reply accept1) ->
  (exists r2,
      resolve accept2 io2 now2 d1 w1 i2 message_id = (d1, w1, r2)
      /\ (r2 = NoTienesPermisos \/ r2 = SugerenciaNoEncontrada
          \/ r2 = MensajeOriginalNoEncontrado))
  /\ (io1 = Written ->
      (exists record,
          load_suggestions d1 !! message_id = Some record
          /\ s_status record = (if accept1 then "accepted" else "denied")
          /\ s_reviewed_by record = Some (user_id (i_user i1))
          /\ s_reviewed_at record = Some (iso now1))
      /\ (has_required_role (i_user i2) = true ->
          resolve accept2 io2 now2 d1 w1 i2 message_id
          = (d1, w1, MensajeOriginalNoEncontrado))).
Proof.
  intros Hresults Hfirst.
  assert (Hmoved : exists v, resolve accept1 = suggest_resolve v
                             /\ accepted_reply accept1 = v_reply v
                             /\ (if accept1 then "accepted" else "denied") = v_status v
                             /\ (v_reply v = SugerenciaAceptada
                                 \/ v_reply v = SugerenciaRechazada)).
  { destruct accept1; [exists accept_verdict | exists deny_verdict];
      repeat split; auto. }
  destruct Hmoved as (v & Ev & Er & Es & Hv).
  rewrite Ev, Er in Hfirst. rewrite Es.
  destruct (suggest_resolve_moved v io1 now1 d d1 w w1 i1 message_id
              Hresults Hv Hfirst)
    as (record & record' & w0 & Hrecord & Hch & Hst & Hby & Hat & -> & ->).
  assert (Hgone : forall record2,
             load_suggestions
               (save_suggestions io1 d (<[message_id := record']> (load_suggestions d)))
             !! message_id = Some record2 ->
             get_channel (delete_message w0 (s_channel_id record) message_id)
                         (s_channel_id record2)
             ≫= (fun c => fetch_message c message_id) = None).
  { intros record2 H2.
    assert (Hsame : s_channel_id record2 = s_channel_id record).
    { destruct io1.
      - unfold load_suggestions in H2 at 1. simpl in H2.
        rewrite lookup_insert_eq in H2. injection H2 as <-. exact Hch.
      - rewrite save_open_failed in H2. congruence.
      - unfold load_suggestions in H2 at 1. simpl in H2.
        rewrite lookup_empty in H2. discriminate H2. }
    rewrite Hsame. apply fetch_after_delete. }
  assert (Hsecond : exists v2, resolve accept2 = suggest_resolve v2).
  { destruct accept2; eexists; reflexivity. }
  destruct Hsecond as (v2 & Ev2). rewrite Ev2.
  destruct (suggest_resolve_blocked v2 io2 now2 _ _ i2 message_id Hgone)
    as (r2 & E2 & Hr2 & Hrole).
  split.
  - exists r2. split; [exact E2 | exact Hr2].
  - intros ->. split.
    + exists record'. unfold load_suggestions at 1. simpl.
      rewrite lookup_insert_eq. repeat split; assumption.
    + intros Hrole2. rewrite E2. rewrite Hrole; [reflexivity | exact Hrole2 |].
      unfold load_suggestions at 1. simpl. rewrite lookup_insert_eq. eauto.
Qed.

Lemma moved_suggestion_is_not_resolved_again_witness :
  let first := resolve true Written monday posted_suggestion_disk
                       posted_suggestion_world (Interaction ana 7 "sugerencias") 1000 in
  resolve false Written tuesday (fst (fst first)) (snd (fst first))
          (Interaction eva 7 "sugerencias") 1000
  = (fst (fst first), snd (fst first), MensajeOriginalNoEncontrado).
Proof.
  intros first.
  destruct (moved_suggestion_is_not_resolved_again true false Written Written
              monday tuesday posted_suggestion_disk (fst (fst first))
              posted_suggestion_world (snd (fst first))
              (Interaction ana 7 "sugerencias") (Interaction eva 7 "sugerencias")
              1000) as [_ H].
  - eexists. vm_compute. reflexivity.
  - vm_compute. reflexivity.
  - destruct (H eq_refl) as [_ Hsecond]. apply Hsecond. reflexivity.
Defined.

End SuggestionWorkflow.

(** ** Tickets *)

Section TicketWorkflow.

(** C9. [/ticket cerrar] by a member with the role, in a channel named
    like a ticket for which [tickets.json] holds no record, answers
    that there is no information on the ticket and does nothing else:
    no transcript is posted, no channel is deleted and no file is
    written. The bot keeps its counters; [load_tickets] has only set
    its ticket counter to the stored one. *)
Theorem close_ticket_without_record
    (io : write_outcome) (now : clock) (b : bot) (d : disk) (w : world)
    (i : interaction) :
  has_required_role (i_user i) = true ->
  startswith (i_channel_name i) ticket_prefix = true ->
  snd (load_tickets b d) !! i_channel_id i = None ->
  close_ticket io now b d w i = (fst (load_tickets b d), d, w, TicketSinInformacion)
  /\ message_counters (fst (load_tickets b d)) = message_counters b
  /\ help_message_counter (fst (load_tickets b d)) = help_message_counter b
  /\ suggestions_command_counter (fst (load_tickets b d))
     = suggestions_command_counter b.
Proof.
  intros Hrole Hname Hnone. unfold close_ticket. rewrite Hrole, Hname. simpl.
  destruct (load_tickets b d) as [b1 tickets_data] eqn:E. simpl in *.
  rewrite Hnone. split; [reflexivity |].
  unfold load_tickets in E.
  destruct (read_file (tickets_file d)); injection E as <- _; repeat split.
Qed.

Lemma close_ticket_without_record_witness :
  close_ticket Written monday (init no_files) no_files small_guild
               (Interaction ana 5 (ticket_prefix +:+ "0001"))
  = (init no_files, no_files, small_guild, TicketSinInformacion).
Proof.
  apply (close_ticket_without_record Written monday (init no_files) no_files
           small_guild (Interaction ana 5 (ticket_prefix +:+ "0001"))).
  - reflexivity.
  - reflexivity.
  - reflexivity.
Defined.

(** Once [tickets.json] holds a document, a ticket takes the number
    after the counter the bot holds, and then both that counter and
    the stored one are the counter that was in the file: the stored
    counter does not advance. *)
Lemma create_ticket_keeps_stored_counter
    (now : clock) (b : bot) (d : disk) (w : world) (i : interaction)
    (reason : string) (doc : tickets_doc) :
  tickets_file d = Document doc ->
  exists b' d' w' ticket_channel,
    create_ticket Written now b d w i reason
    = (b', d', w', TicketCreado (ticket_counter b + 1) ticket_channel)
    /\ ticket_counter b' = doc_counter doc
    /\ doc_counter <$> read_file (tickets_file d') = Some (doc_counter doc).
Proof.
  intros Hdoc. unfold create_ticket, load_tickets. simpl.
  rewrite Hdoc. simpl. eexists _, _, _, _. repeat split.
Qed.

(** C1. Four tickets opened one after the other on a fresh
    installation, the last one after a restart of the bot, get the
    numbers 1, 2, 2 and 1: [create_ticket] adds one to the counter it
    holds before [load_tickets] puts the stored counter back, so the
    file keeps the counter 1 and numbers are issued again. *)
Theorem create_ticket_issues_numbers_again :
  let i := Interaction luis 5 "general" in
  let first := create_ticket Written monday (init no_files) no_files small_guild i "uno" in
  let second :=
    create_ticket Written monday (fst (fst (fst first))) (snd (fst (fst first)))
                  (snd (fst first)) i "dos" in
  let third :=
    create_ticket Written tuesday (fst (fst (fst second))) (snd (fst (fst second)))
                  (snd (fst second)) i "tres" in
  let restarted := init (snd (fst (fst third))) in
  let fourth :=
    create_ticket Written tuesday restarted (snd (fst (fst third)))
                  (snd (fst third)) i "cuatro" in
  snd first = TicketCreado 1 1000
  /\ snd second = TicketCreado 2 1002
  /\ snd third = TicketCreado 2 1004
  /\ snd fourth = TicketCreado 1 1006
  /\ doc_counter <$> read_file (tickets_file (snd (fst (fst fourth)))) = Some 1.
Proof.
  vm_compute. repeat split; reflexivity.
Qed.

End TicketWorkflow.

(** * Further properties *)

(** ** Strike ledger *)

Section StrikeLedgerMore.

(** X1. More strikes never lower the tier: when no count decreases, the
    tier announced by [check_strike_limits] is at least as severe. *)
Theorem more_strikes_never_lower_the_tier (c c' : strike_counts) :
  leve c <= leve c' ->
  moderado c <= moderado c' ->
  grave c <= grave c' ->
  exists e e',
    tier (check_strike_limits c) = Some e
    /\ tier (check_strike_limits c') = Some e'
    /\ (rank e <= rank e')%nat.
Proof.
  intros Hl Hm Hg. unfold check_strike_limits.
  repeat match goal with
         | |- context [?a <=? ?b] => destruct (Z.leb_spec a b)
         end;
    try lia;
    (do 2 eexists; split; [reflexivity | split; [reflexivity | simpl; lia]]).
Qed.

Lemma more_strikes_never_lower_the_tier_witness :
  exists e e',
    tier (check_strike_limits (Counts 3 0 0)) = Some e
    /\ tier (check_strike_limits (Counts 3 3 0)) = Some e'
    /\ (rank e <= rank e')%nat.
Proof.
  apply (more_strikes_never_lower_the_tier (Counts 3 0 0) (Counts 3 3 0));
    simpl; lia.
Defined.

Lemma count_loop_app (l1 l2 : list strike) :
  forall c, count_loop c (l1 ++ l2)
            = count_loop c l1 ≫= (fun c' => count_loop c' l2).
Proof.
  induction l1 as [| s l1 IH]; intros c; [reflexivity |].
  simpl. destruct (count_one c s); [apply IH | reflexivity].
Qed.

Lemma count_strikes_snoc (l : list strike) (s : strike) :
  count_strikes (l ++ [s]) = count_strikes l ≫= (fun c => count_one c s).
Proof.
  unfold count_strikes. rewrite count_loop_app.
  destruct (count_loop (Counts 0 0 0) l) as [c |]; [| reflexivity].
  simpl. destruct (count_one c s); reflexivity.
Qed.

(** X2. [/strike add] by a member with the role, with a severity and a
    reason, on a user whose stored strikes all carry a known severity:
    the new strike goes to the end of the user's list, the lists of the
    other users stay, and the reply carries the limit message for the
    counts of the whole list, the new strike included. *)
Theorem strike_add_appends_and_reports_limits
    (today : string) (i : interaction) (f : file (gmap Z (list strike)))
    (usuario : member) (t : severity) (reason : string) (c : strike_counts) :
  has_required_role (i_user i) = true ->
  reason <> "" ->
  count_strikes (entries (load_strikes f) (user_id usuario)) = Some c ->
  let new_strike := Strike (severity_name t) reason today (display_name (i_user i)) in
  let after := strike_command Written today i f (Add (Some t) (Some reason)) usuario in
  exists c',
    count_one c new_strike = Some c'
    /\ total c' = total c + 1
    /\ snd after = StrikeAgregado new_strike (check_strike_limits c')
    /\ entries (load_strikes (fst after)) (user_id usuario)
       = entries (load_strikes f) (user_id usuario) ++ [new_strike]
    /\ (forall other, other <> user_id usuario ->
          load_strikes (fst after) !! other = load_strikes f !! other).
Proof.
  intros Hrole Hreason Hcount new_strike after.
  destruct (count_one_recognized c new_strike) as (c' & Hone & Htotal).
  { destruct t; unfold recognized; simpl; auto. }
  exists c'. split; [exact Hone |]. split; [exact Htotal |].
  assert (E : after
              = (Document (<[user_id usuario :=
                               entries (load_strikes f) (user_id usuario) ++ [new_strike]]>
                             (load_strikes f)),
                 StrikeAgregado new_strike (check_strike_limits c'))).
  { unfold after, strike_command, _add_strike. rewrite Hrole. simpl.
    rewrite bool_decide_eq_false_2 by exact Hreason.
    rewrite entries_insert_eq. fold new_strike.
    rewrite count_strikes_snoc, Hcount. simpl. rewrite Hone. reflexivity. }
  rewrite E. simpl. repeat split.
  - unfold load_strikes at 1. simpl. apply entries_insert_eq.
  - intros other Hother. unfold load_strikes at 1. simpl.
    rewrite lookup_insert_ne by congruence. reflexivity.
Qed.

Lemma strike_add_appends_and_reports_limits_witness :
  snd (strike_command Written "2024-01-01" (Interaction ana 5 "general") Missing
                      (Add (Some Grave) (Some "insultos")) luis)
  = StrikeAgregado (Strike "grave" "insultos" "2024-01-01" "Ana")
                   (Some despido_directo).
Proof.
  destruct (strike_add_appends_and_reports_limits "2024-01-01"
              (Interaction ana 5 "general") Missing luis Grave "insultos"
              (Counts 0 0 0))
    as (c' & Hone & _ & Hreply & _).
  - reflexivity.
  - discriminate.
  - reflexivity.
  - injection Hone as <-. exact Hreply.
Defined.

(** X3. A stored strike with an unknown severity makes [/strike add] end
    in the count ([KeyError]) after the new strike was written: the
    command fails and the file holds the new strike all the same. *)
Theorem strike_add_fails_after_saving
    (today : string) (i : interaction) (f : file (gmap Z (list strike)))
    (usuario : member) (t : severity) (reason : string) :
  has_required_role (i_user i) = true ->
  reason <> "" ->
  Exists (fun s => ~ recognized s) (entries (load_strikes f) (user_id usuario)) ->
  let new_strike := Strike (severity_name t) reason today (display_name (i_user i)) in
  let after := strike_command Written today i f (Add (Some t) (Some reason)) usuario in
  snd after = StrikeCommandFailed
  /\ entries (load_strikes (fst after)) (user_id usuario)
     = entries (load_strikes f) (user_id usuario) ++ [new_strike].
Proof.
  intros Hrole Hreason Hbad new_strike after.
  assert (Hnone : count_strikes (entries (load_strikes f) (user_id usuario)
                                 ++ [new_strike]) = None).
  { apply count_loop_unknown. apply Exists_app. left. exact Hbad. }
  assert (E : after
              = (Document (<[user_id usuario :=
                               entries (load_strikes f) (user_id usuario) ++ [new_strike]]>
                             (load_strikes f)),
                 StrikeCommandFailed)).
  { unfold after, strike_command, _add_strike. rewrite Hrole. simpl.
    rewrite bool_decide_eq_false_2 by exact Hreason.
    rewrite entries_insert_eq. fold new_strike. rewrite Hnone. reflexivity. }
  rewrite E. simpl. split; [reflexivity |].
  unfold load_strikes at 1. simpl. apply entries_insert_eq.
Qed.

Lemma strike_add_fails_after_saving_witness :
  let f := Document {[2 := [Strike "severo" "x" "2023-12-31" "Eva"]]} in
  let after := strike_command Written "2024-01-01" (Interaction ana 5 "general") f
                              (Add (Some Leve) (Some "spam")) luis in
  snd after = StrikeCommandFailed
  /\ entries (load_strikes (fst after)) 2
     = [Strike "severo" "x" "2023-12-31" "Eva"; Strike "leve" "spam" "2024-01-01" "Ana"].
Proof.
  intros f after.
  destruct (strike_add_fails_after_saving "2024-01-01" (Interaction ana 5 "general")
              f luis Leve "spam") as [Hreply Hentries].
  - reflexivity.
  - discriminate.
  - apply Exists_cons_hd. unfold recognized. simpl.
    intros [H | [H | H]]; discriminate H.
  - split; [exact Hreply | exact Hentries].
Defined.

(** X4. [/strike add] followed by [/strike remove] gives back the strikes
    of every user, whatever the ledger held: the removal takes out the
    strike that was just added. *)
Theorem add_then_remove_restores_entries
    (today1 today2 : string) (i1 i2 : interaction)
    (f : file (gmap Z (list strike))) (usuario : member) (t : severity)
    (reason : string) :
  has_required_role (i_user i1) = true ->
  has_required_role (i_user i2) = true ->
  reason <> "" ->
  let added := Strike (severity_name t) reason today1 (display_name (i_user i1)) in
  let after_add :=
    strike_command Written today1 i1 f (Add (Some t) (Some reason)) usuario in
  let after_remove :=
    strike_command Written today2 i2 (fst after_add) Remove usuario in
  snd after_remove = StrikeRemovido added
  /\ (forall u, entries (load_strikes (fst after_remove)) u = entries (load_strikes f) u).
Proof.
  intros Hrole1 Hrole2 Hreason added after_add after_remove.
  set (old := entries (load_strikes f) (user_id usuario)).
  assert (Eadd : fst after_add
                 = Document (<[user_id usuario := old ++ [added]]> (load_strikes f))).
  { unfold after_add, strike_command, _add_strike. rewrite Hrole1. simpl.
    rewrite bool_decide_eq_false_2 by exact Hreason.
    fold added. fold old.
    destruct (count_strikes _); reflexivity. }
  assert (Eremove : after_remove
                    = (Document (<[user_id usuario := old]>
                                   (<[user_id usuario := old ++ [added]]>
                                      (load_strikes f))),
                       StrikeRemovido added)).
  { unfold after_remove. rewrite Eadd. unfold strike_command, _remove_strike.
    rewrite Hrole2. simpl. unfold load_strikes at 1 2 3. simpl.
    rewrite entries_insert_eq, pop_snoc. reflexivity. }
  rewrite Eremove. simpl. split; [reflexivity |].
  intros u. unfold load_strikes at 1. simpl. unfold entries at 1.
  destruct (decide (u = user_id usuario)) as [-> | Hne].
  - rewrite lookup_insert_eq. reflexivity.
  - rewrite !lookup_insert_ne by congruence. reflexivity.
Qed.

Lemma add_then_remove_restores_entries_witness :
  let f := Document {[2 := [Strike "grave" "x" "2023-12-31" "Eva"]]} in
  let after_add :=
    strike_command Written "2024-01-01" (Interaction ana 5 "general") f
                   (Add (Some Leve) (Some "spam")) luis in
  let after_remove :=
    strike_command Written "2024-01-02" (Interaction eva 5 "general") (fst after_add)
                   Remove luis in
  snd after_remove = StrikeRemovido (Strike "leve" "spam" "2024-01-01" "Ana")
  /\ entries (load_strikes (fst after_remove)) 2
     = [Strike "grave" "x" "2023-12-31" "Eva"].
Proof.
  destruct (add_then_remove_restores_entries "2024-01-01" "2024-01-02"
              (Interaction ana 5 "general") (Interaction eva 5 "general")
              (Document {[2 := [Strike "grave" "x" "2023-12-31" "Eva"]]})
              luis Leve "spam") as [Hreply Hentries].
  - reflexivity.
  - reflexivity.
  - discriminate.
  - exact (conj Hreply (Hentries 2)).
Defined.

Lemma strike_text_recognized (s : strike) :
  recognized s -> is_Some (strike_text s).
Proof.
  intros [H | [H | H]]; unfold strike_text, strike_heading; rewrite H; simpl;
    eauto.
Qed.

Lemma strikes_text_recognized (shown : list strike) :
  Forall recognized shown -> is_Some (strikes_text shown).
Proof.
  induction 1 as [| s rest Hs _ IH]; simpl; [eauto |].
  destruct (strike_text_recognized s Hs) as [text ->].
  destruct IH as [more ->]. eauto.
Qed.

Lemma first_characters_whole (s : string) :
  forall n, (characters s <= n)%nat -> first_characters n s = s.
Proof.
  induction s as [| a rest IH]; intros n Hn; simpl in *; [reflexivity |].
  destruct (continues_character a).
  - rewrite IH by exact Hn. reflexivity.
  - destruct n as [| n]; [lia |]. rewrite IH by lia. reflexivity.
Qed.

Lemma first_characters_bound (s : string) :
  forall n, (characters (first_characters n s) <= n)%nat.
Proof.
  induction s as [| a rest IH]; intros n; simpl; [lia |].
  destruct (continues_character a) eqn:E.
  - simpl. rewrite E. apply IH.
  - destruct n as [| n]; simpl; [lia |]. rewrite E. specialize (IH n). lia.
Qed.

Lemma first_characters_prefix (s : string) :
  forall n, exists cut, s = first_characters n s +:+ cut.
Proof.
  induction s as [| a rest IH]; intros n; simpl; [exists ""; reflexivity |].
  destruct (continues_character a).
  - destruct (IH n) as [cut E]. exists cut.
    change (String a rest = String a (first_characters n rest +:+ cut)).
    f_equal. exact E.
  - destruct n as [| n]; [exists (String a rest); reflexivity |].
    destruct (IH n) as [cut E]. exists cut.
    change (String a rest = String a (first_characters n rest +:+ cut)).
    f_equal. exact E.
Qed.

(** X5. [/strike check] on a user with strikes of known severities shows
    the counts of all of them, the limit message for those counts, and
    the text of the five most recent strikes, newest first, cut after
    its first 1024 characters: the text shown is a beginning of the whole
    text, has at most 1024 characters, and is the whole text when that
    has no more. On a user without strikes the command only says so. *)
Theorem check_shows_counts_and_recent_strikes
    (strikes_data : gmap Z (list strike)) (uid : Z) (user_strikes : list strike) :
  entries strikes_data uid = user_strikes ->
  Forall recognized user_strikes ->
  (user_strikes = [] -> _check_strikes strikes_data uid = SinStrikes)
  /\ (user_strikes <> [] ->
      exists c text,
        count_strikes user_strikes = Some c
        /\ total c = Z.of_nat (length user_strikes)
        /\ strikes_text (take 5 (rev user_strikes)) = Some text
        /\ _check_strikes strikes_data uid
           = Historial c (check_strike_limits c) (first_characters 1024 text)
        /\ (exists cut, text = first_characters 1024 text +:+ cut)
        /\ (characters (first_characters 1024 text) <= 1024)%nat
        /\ ((characters text <= 1024)%nat -> first_characters 1024 text = text)).
Proof.
  intros Hentries Hall. unfold entries in Hentries. unfold _check_strikes. split.
  - intros ->. destruct (strikes_data !! uid) as [l |]; simpl in Hentries;
      [subst l |]; reflexivity.
  - intros Hne. destruct (strikes_data !! uid) as [l |]; simpl in Hentries;
      [subst l | congruence].
    destruct (count_loop_recognized user_strikes (Counts 0 0 0) Hall) as (c & Ec & Ht).
    destruct (strikes_text_recognized (take 5 (rev user_strikes))) as [text Etext].
    { apply Forall_take, Forall_rev. exact Hall. }
    exists c, text. split; [exact Ec |]. split; [rewrite Ht; reflexivity |].
    split; [exact Etext |].
    split.
    + destruct user_strikes as [| s rest]; [congruence |].
      fold (count_strikes (s :: rest)) in Ec. rewrite Ec.
      unfold last5. rewrite firstn_rev in Etext. rewrite Etext. reflexivity.
    + split; [apply first_characters_prefix |].
      split; [apply first_characters_bound |].
      apply first_characters_whole.
Qed.

Lemma check_shows_counts_and_recent_strikes_witness :
  let s k := Strike "leve" k "2024-01-01" "Ana" in
  let line k :=
    "ğŸŸ¢ **Leve** - " +:+ k +:+ nl +:+ "*2024-01-01 por Ana*" +:+ nl +:+ nl in
  _check_strikes {[2 := [s "a"; s "b"; s "c"; s "d"; s "e"; s "f"]]} 2
  = Historial (Counts 6 0 0) (Some despido_leves)
              (line "f" +:+ line "e" +:+ line "d" +:+ line "c" +:+ line "b").
Proof.
  intros s line.
  destruct (check_shows_counts_and_recent_strikes
              {[2 := [s "a"; s "b"; s "c"; s "d"; s "e"; s "f"]]} 2
              [s "a"; s "b"; s "c"; s "d"; s "e"; s "f"]) as [_ H].
  - reflexivity.
  - repeat constructor.
  - destruct H as (c & text & Ec & _ & Etext & E & _ & _ & Hwhole);
      [discriminate |].
    injection Ec as <-. injection Etext as <-. rewrite E.
    rewrite Hwhole by (vm_compute; lia). reflexivity.
Defined.

End StrikeLedgerMore.

(** ** Counters *)

Section CountersMore.
Import Interleaving.

(** X6. [reset_counter]: for a channel that has a counter, that counter is
    set to zero and written, the others stay; for a channel without a
    counter nothing is changed and nothing is written; without a
    channel, and also for the channel identifier 0, every counter is
    dropped. *)
Theorem reset_counter_cases (io : write_outcome) (b : bot) (d : disk) (ch : Z) :
  (ch <> 0 -> is_Some (message_counters b !! ch) ->
   let after := reset_counter io b d (Some ch) in
   message_counters (fst after) !! ch = Some 0
   /\ (forall other, other <> ch ->
         message_counters (fst after) !! other = message_counters b !! other)
   /\ snd after = save_counters io (fst after) d)
  /\ (ch <> 0 -> message_counters b !! ch = None ->
      reset_counter io b d (Some ch) = (b, d))
  /\ (forall channel_id,
         channel_id = None \/ channel_id = Some 0 ->
         let after := reset_counter io b d channel_id in
         message_counters (fst after) = ∅
         /\ (forall any, get_counter (fst after) any = 0)
         /\ snd after = save_counters io (fst after) d).
Proof.
  repeat split.
  - unfold reset_counter. rewrite bool_decide_eq_false_2 by assumption.
    destruct H0 as [v ->]. simpl. apply lookup_insert_eq.
  - intros other Hother. unfold reset_counter.
    rewrite bool_decide_eq_false_2 by assumption.
    destruct H0 as [v ->]. simpl. rewrite lookup_insert_ne by congruence. reflexivity.
  - unfold reset_counter. rewrite bool_decide_eq_false_2 by assumption.
    destruct H0 as [v ->]. reflexivity.
  - intros Hch Hnone. unfold reset_counter.
    rewrite bool_decide_eq_false_2 by assumption. rewrite Hnone. reflexivity.
  - destruct H as [-> | ->]; reflexivity.
  - intros any. destruct H as [-> | ->]; unfold get_counter; simpl;
      rewrite lookup_empty; reflexivity.
  - destruct H as [-> | ->]; reflexivity.
Qed.

Lemma reset_counter_cases_witness :
  let b := set_message_counters (init no_files) (<[7 := 3]> {[5 := 1]}) in
  message_counters (fst (reset_counter Written b no_files (Some 7))) !! 7 = Some 0
  /\ reset_counter Written b no_files (Some 9) = (b, no_files)
  /\ message_counters (fst (reset_counter Written b no_files (Some 0))) = ∅.
Proof.
  intros b.
  destruct (reset_counter_cases Written b no_files 7) as (H7 & _ & _).
  destruct (reset_counter_cases Written b no_files 9) as (_ & H9 & _).
  destruct (reset_counter_cases Written b no_files 0) as (_ & _ & H0).
  split; [| split].
  - apply H7; [lia | eexists; reflexivity].
  - apply H9; [lia | reflexivity].
  - apply (H0 (Some 0)). right. reflexivity.
Defined.

Lemma written_counters_on_disk (b : bot) (d : disk) :
  counters_on_disk b (save_counters Written b d).
Proof. reflexivity. Qed.

Lemma ticket_gate_keeps_counters (b : bot) (d : disk) (w : world) (m : incoming) :
  message_counters (fst (ticket_gate b d w m)) = message_counters b.
Proof.
  unfold ticket_gate, load_tickets.
  destruct (in_channel_name m) as [name |]; [| reflexivity].
  destruct (_ && _); [| reflexivity].
  destruct (read_file (tickets_file d)) as [data |]; simpl.
  - destruct (doc_tickets data !! in_channel m); [destruct (bool_decide _) |];
      reflexivity.
  - rewrite lookup_empty. reflexivity.
Qed.

(** X7. When the counters file holds the counters of the bot, it still does
    after any message, after a reset and after the suggestion and
    ticket commands, as long as the writes succeed: a restart finds the
    counters the bot held. *)
Theorem counters_stay_on_disk
    (cfg : config) (now : clock) (b : bot) (d : disk) (w : world) :
  counters_on_disk b d ->
  (forall m,
      let after := on_message cfg Written b d w m in
      counters_on_disk (fst (fst (fst after))) (snd (fst (fst after))))
  /\ (forall channel_id,
         let after := reset_counter Written b d channel_id in
         counters_on_disk (fst after) (snd after))
  /\ (forall i sugerencia,
         let after := suggest_create cfg Written now b d w i sugerencia in
         counters_on_disk (fst (fst (fst after))) (snd (fst (fst after))))
  /\ (forall i reason,
         let after := create_ticket Written now b d w i reason in
         counters_on_disk (fst (fst (fst after))) (snd (fst (fst after))))
  /\ (forall i,
         let after := close_ticket Written now b d w i in
         counters_on_disk (fst (fst (fst after))) (snd (fst (fst after)))).
Proof.
  intros Hsync. unfold counters_on_disk in *. repeat split.
  - intros m. unfold on_message.
    destruct (is_bot (in_author m)); [exact Hsync |].
    destruct (_ || _).
    { unfold test_command. destruct (get_channel w welcome_channel_id); exact Hsync. }
    destruct (_ || _).
    { unfold test_command. destruct (get_channel w welcome_channel_id); exact Hsync. }
    destruct (bool_decide (in_channel m = CHANNEL_ID cfg)).
    + destruct (_ && _); [exact Hsync |].
      unfold count_block, count_message.
      destruct (MESSAGE_THRESHOLD cfg <=? _); reflexivity.
    + pose proof (ticket_gate_keeps_counters b d w m) as Hgate.
      destruct (ticket_gate b d w m) as [b1 [w1 |]]; simpl in Hgate.
      * simpl. rewrite Hgate. exact Hsync.
      * unfold help_block.
        destruct (_ && _); [| simpl; rewrite Hgate; exact Hsync].
        destruct (_ <=? _); simpl; rewrite Hgate; exact Hsync.
  - intros channel_id. unfold reset_counter.
    destruct channel_id as [ch |]; [| reflexivity].
    destruct (bool_decide (ch = 0)); [reflexivity |].
    destruct (message_counters b !! ch); [reflexivity | exact Hsync].
  - intros i sugerencia. unfold suggest_create.
    destruct (send w (i_channel_id i) _ _) as [w1 mid].
    destruct (_ <=? _); [| exact Hsync].
    destruct (get_channel _ _); exact Hsync.
  - intros i reason. unfold create_ticket.
    destruct (create_text_channel _ _ _ _) as [w1 cid].
    unfold load_tickets. simpl.
    destruct (read_file (tickets_file d)); exact Hsync.
  - intros i. unfold close_ticket.
    destruct (negb (has_required_role (i_user i))); [exact Hsync |].
    destruct (negb (startswith _ _)); [exact Hsync |].
    unfold load_tickets.
    destruct (read_file (tickets_file d)) as [data |]; simpl.
    + destruct (doc_tickets data !! i_channel_id i); exact Hsync.
    + rewrite lookup_empty. exact Hsync.
Qed.

Lemma counters_stay_on_disk_witness :
  let after := on_message two_messages Written (init no_files) no_files small_guild
                          (Incoming 500 7 (Some "sugerencias") ana "hola") in
  message_counters (init (snd (fst (fst after))))
  = message_counters (fst (fst (fst after))).
Proof.
  destruct (counters_stay_on_disk two_messages monday (init no_files) no_files
              small_guild) as [Hmessage _].
  - reflexivity.
  - exact (Hmessage (Incoming 500 7 (Some "sugerencias") ana "hola")).
Defined.



Lemma step_keeps_rest_invariant (cfg : config) (ch : Z) (s : state) (e : event) :
  0 < MESSAGE_THRESHOLD cfg ->
  (st_waiting s = 0%nat -> counter_of ch s < MESSAGE_THRESHOLD cfg) ->
  st_waiting (step cfg ch s e) = 0%nat ->
  counter_of ch (step cfg ch s e) < MESSAGE_THRESHOLD cfg.
Proof.
  intros Hpos Hinv. destruct e; unfold step.
  - unfold count_message. fold (counter_of ch s).
    destruct (Z.leb_spec (MESSAGE_THRESHOLD cfg) (counter_of ch s + 1)); simpl.
    + discriminate.
    + intros Hwait. unfold counter_of at 1. simpl. rewrite lookup_insert_eq.
      simpl. lia.
  - destruct (st_waiting s) as [| waiting] eqn:E.
    + intros _. apply Hinv. reflexivity.
    + simpl. intros _. unfold counter_of. simpl. rewrite lookup_insert_eq.
      simpl. lia.
Qed.

(** X9. However the handlers of the monitored channel interleave, whenever
    none of them is suspended in the reminder the counter is below the
    (positive) threshold, provided it was so at the start. *)
Theorem counter_below_threshold_at_rest
    (cfg : config) (ch : Z) (schedule : list event) :
  forall s : state,
    0 < MESSAGE_THRESHOLD cfg ->
    (st_waiting s = 0%nat -> counter_of ch s < MESSAGE_THRESHOLD cfg) ->
    st_waiting (run cfg ch s schedule) = 0%nat ->
    counter_of ch (run cfg ch s schedule) < MESSAGE_THRESHOLD cfg.
Proof.
  induction schedule as [| e schedule IH]; intros s Hpos Hinv.
  - exact Hinv.
  - simpl. apply IH; [exact Hpos |].
    apply step_keeps_rest_invariant; assumption.
Qed.

Lemma counter_below_threshold_at_rest_witness :
  counter_of 7 (run two_messages 7 (start (init no_files) no_files small_guild)
                    [Arrive; Arrive; Arrive; Resume; Arrive; Resume]) < 2.
Proof.
  apply (counter_below_threshold_at_rest two_messages 7
           [Arrive; Arrive; Arrive; Resume; Arrive; Resume]
           (start (init no_files) no_files small_guild)).
  - reflexivity.
  - intros _. reflexivity.
  - reflexivity.
Defined.

Lemma main_is_some (c : ConfigFile.Config) :
  is_Some (main c)
  <-> bool_decide (ConfigFile.BOT_TOKEN c = None \/ ConfigFile.BOT_TOKEN c = Some "") = false
      /\ bool_decide (ConfigFile.CHANNEL_ID c = None \/ ConfigFile.CHANNEL_ID c = Some 0) = false.
Proof.
  destruct c as [token channel_id threshold reminder]. unfold main. simpl.
  rewrite !bool_decide_eq_false.
  destruct token as [token |], channel_id as [channel_id |];
    try (split; [intros [x Hx]; discriminate Hx | intros [H1 H2]; exfalso; tauto]).
  destruct (decide (token = "")) as [-> | Ht].
  { split; [intros [x Hx]; discriminate Hx | intros [H1 H2]; exfalso; tauto]. }
  rewrite (bool_decide_eq_false_2 _ Ht).
  destruct (decide (channel_id = 0)) as [-> | Hc].
  { split; [intros [x Hx]; discriminate Hx | intros [H1 H2]; exfalso; tauto]. }
  rewrite (bool_decide_eq_false_2 _ Hc).
  split; [intros _ | intros _; eexists; reflexivity].
  split; intros [H | H]; congruence.
Qed.

(** X10. [main] starts the bot exactly when [validate] has nothing to report
    but, possibly, the threshold: a threshold of zero or less is reported
    by [validate] and started by [main] all the same. The bot gets the
    channel and the threshold of the configuration. *)
Theorem main_does_not_check_the_threshold (c : ConfigFile.Config) :
  (is_Some (main c)
   <-> forall e, e ∈ ConfigFile.validate c ->
                 e = "MESSAGE_THRESHOLD must be greater than 0")
  /\ (forall cfg,
         main c = Some cfg ->
         Some (CHANNEL_ID cfg) = ConfigFile.CHANNEL_ID c
         /\ CHANNEL_ID cfg <> 0
         /\ MESSAGE_THRESHOLD cfg = ConfigFile.MESSAGE_THRESHOLD c
         /\ REMINDER_MESSAGE cfg = ConfigFile.REMINDER_MESSAGE c)
  /\ (ConfigFile.validate c = [] <->
      is_Some (main c) /\ 0 < ConfigFile.MESSAGE_THRESHOLD c).
Proof.
  split; [| split].
  - rewrite main_is_some. unfold ConfigFile.validate.
    destruct (bool_decide (ConfigFile.BOT_TOKEN c = None \/ _));
      destruct (bool_decide (ConfigFile.CHANNEL_ID c = None \/ _));
      destruct (ConfigFile.MESSAGE_THRESHOLD c <=? 0); simpl;
      (split; [intros [H1 H2]; try discriminate; intros e He; set_solver
              | intros Hall; try (split; reflexivity)]).
    all: try (specialize (Hall "BOT_TOKEN is required"); 
              assert (Hfalse : "BOT_TOKEN is required" = "MESSAGE_THRESHOLD must be greater than 0") by (apply Hall; set_solver);
              discriminate Hfalse).
    all: try (specialize (Hall "CHANNEL_ID is required"); 
              assert (Hfalse : "CHANNEL_ID is required" = "MESSAGE_THRESHOLD must be greater than 0") by (apply Hall; set_solver);
              discriminate Hfalse).
  - intros cfg. destruct c as [token channel_id threshold reminder]. unfold main. simpl.
    destruct token as [token |]; [| discriminate].
    destruct channel_id as [channel_id |]; [| discriminate].
    destruct (bool_decide (token = "")); [discriminate |].
    destruct (bool_decide (channel_id = 0)) eqn:Hc; [discriminate |].
    apply bool_decide_eq_false in Hc.
    intros [= <-]. simpl. auto.
  - rewrite main_is_some. unfold ConfigFile.validate.
    destruct (bool_decide (ConfigFile.BOT_TOKEN c = None \/ _));
      destruct (bool_decide (ConfigFile.CHANNEL_ID c = None \/ _));
      destruct (Z.leb_spec (ConfigFile.MESSAGE_THRESHOLD c) 0); simpl;
      (split; [intros Hnil; try discriminate Hnil; (split; [split; reflexivity | lia])
              | intros [[H1 H2] Hthr]; try discriminate; try lia; reflexivity]).
Qed.

End CountersMore.

Lemma main_does_not_check_the_threshold_witness :
  let c := {| ConfigFile.BOT_TOKEN := Some "token"; ConfigFile.CHANNEL_ID := Some 7;
              ConfigFile.MESSAGE_THRESHOLD := 0;
              ConfigFile.REMINDER_MESSAGE := "recordatorio" |} in
  main c = Some (Config 7 0 "recordatorio")
  /\ ConfigFile.validate c = ["MESSAGE_THRESHOLD must be greater than 0"].
Proof.
  intros c.
  destruct (main_does_not_check_the_threshold c) as (Hstart & _ & _).
  destruct Hstart as [_ Hstart].
  destruct Hstart as [cfg Hcfg].
  - intros e He. apply list_elem_of_singleton in He. exact He.
  - split; [| reflexivity]. rewrite Hcfg. f_equal.
    vm_compute in Hcfg. injection Hcfg as <-. reflexivity.
Defined.

(** ** The gates of [on_message] *)

Section MessageGates.

Lemma messages_of_send_prefix (w : world) (ch : Z) (text : string)
    (embeds : list embed) (k : Z) :
  messages_of w k `prefix_of` messages_of (fst (send w ch text embeds)) k.
Proof. unfold send. rewrite messages_of_post. eexists. reflexivity. Qed.

Lemma messages_of_delete (w : world) (ch mid k : Z) :
  messages_of (delete_message w ch mid) k
  = if decide (ch = k)
    then List.filter (fun p => negb (bool_decide (fst p = mid))) (messages_of w k)
    else messages_of w k.
Proof.
  unfold messages_of, get_channel, delete_message. simpl. rewrite lookup_alter.
  destruct (decide (ch = k)) as [-> | Hne]; [| reflexivity].
  destruct (w_channels w !! k); reflexivity.
Qed.

Lemma fetch_messages_of (w : world) (ch mid : Z) :
  fetch w ch mid
  = snd <$> List.find (fun p => bool_decide (fst p = mid)) (messages_of w ch).
Proof.
  unfold fetch, messages_of, fetch_message.
  destruct (get_channel w ch); reflexivity.
Qed.

Lemma find_filtered_out (l : list (Z * message)) (mid : Z)
    (keep : Z * message -> bool) :
  (forall p, keep p = true -> fst p <> mid) ->
  List.find (fun p => bool_decide (fst p = mid)) (List.filter keep l) = None.
Proof.
  intros Hkeep. induction l as [| p l IH]; [reflexivity |].
  simpl. destruct (keep p) eqn:E; [| exact IH].
  simpl. rewrite bool_decide_eq_false_2 by (apply Hkeep; exact E). exact IH.
Qed.

Lemma remove_with_warning_messages (w : world) (m : incoming) (e : embed) (k : Z) :
  messages_of (remove_with_warning w m e) k
  = if decide (in_channel m = k)
    then List.filter (fun p => negb (bool_decide (fst p = w_next_id w)))
           (List.filter (fun p => negb (bool_decide (fst p = in_id m)))
                        (messages_of w k))
    else messages_of w k.
Proof.
  assert (E : remove_with_warning w m e
              = delete_message
                  (fst (post (delete_message w (in_channel m) (in_id m)) (in_channel m)
                             (Message (w_me w) "" [e] [] None)))
                  (in_channel m) (w_next_id w)) by reflexivity.
  rewrite E, messages_of_delete, messages_of_post, messages_of_delete.
  change (w_next_id (delete_message w (in_channel m) (in_id m))) with (w_next_id w).
  destruct (decide (in_channel m = k)) as [Hk | Hk].
  - rewrite List.filter_app.
    destruct (bool_decide _); simpl.
    + rewrite bool_decide_eq_true_2 by reflexivity. simpl. apply app_nil_r.
    + apply app_nil_r.
  - rewrite bool_decide_eq_false_2 by (intros [? _]; congruence).
    apply app_nil_r.
Qed.

Lemma find_absent (l : list (Z * message)) (mid : Z) :
  (forall p, In p l -> fst p <> mid) ->
  List.find (fun p => bool_decide (fst p = mid)) l = None.
Proof.
  intros Habsent. induction l as [| p l IH]; [reflexivity |].
  simpl. rewrite bool_decide_eq_false_2 by (apply Habsent; left; reflexivity).
  apply IH. intros q Hq. apply Habsent. right. exact Hq.
Qed.

Lemma fetch_after_remove_with_warning (w : world) (m : incoming) (e : embed) :
  fetch (remove_with_warning w m e) (in_channel m) (in_id m) = None.
Proof.
  rewrite fetch_messages_of, remove_with_warning_messages.
  rewrite decide_True by reflexivity.
  rewrite find_absent; [reflexivity |].
  intros p Hp.
  apply List.filter_In in Hp as [Hp _]. apply List.filter_In in Hp as [_ Hp].
  apply negb_true_iff, bool_decide_eq_false in Hp. exact Hp.
Qed.

Lemma remove_with_warning_keeps_nothing_new (w : world) (m : incoming) (e : embed)
    (k : Z) (p : Z * message) :
  p ∈ messages_of (remove_with_warning w m e) k -> p ∈ messages_of w k.
Proof.
  rewrite remove_with_warning_messages.
  destruct (decide (in_channel m = k)); [| auto].
  rewrite !list_elem_of_In. intros H.
  apply List.filter_In in H as [H _]. apply List.filter_In in H as [H _]. exact H.
Qed.

(** X11. In the monitored suggestions channel, a message of a member without
    the role that does not begin with the command prefix (and is not a
    test command) is deleted and not counted: the bot and the files stay
    as they are, the message can no longer be fetched, and when the
    handler ends the channel holds no message it did not hold before
    (the warning is taken away again). *)
Theorem unprivileged_text_is_removed_from_suggestions
    (cfg : config) (io : write_outcome) (b : bot) (d : disk) (w : world)
    (m : incoming) :
  is_bot (in_author m) = false ->
  is_test_command (in_content m) = false ->
  in_channel m = CHANNEL_ID cfg ->
  startswith (in_content m) "/" = false ->
  has_required_role (in_author m) = false ->
  let after := on_message cfg io b d w m in
  after = (b, d, snd (fst after), RemovedFromSuggestions)
  /\ fetch (snd (fst after)) (in_channel m) (in_id m) = None
  /\ (forall k p, p ∈ messages_of (snd (fst after)) k -> p ∈ messages_of w k).
Proof.
  intros Hbot Htest Hch Hslash Hrole after.
  apply is_test_command_false in Htest as [Hwelcome Hgoodbye].
  assert (E : after = (b, d, remove_with_warning w m (suggestions_warning (in_author m)),
                       RemovedFromSuggestions)).
  { unfold after, on_message.
    rewrite Hbot, Hwelcome, Hgoodbye, Hslash, Hrole.
    rewrite bool_decide_eq_true_2 by exact Hch. reflexivity. }
  rewrite E. simpl. split; [reflexivity |]. split.
  - apply fetch_after_remove_with_warning.
  - intros k p. apply remove_with_warning_keeps_nothing_new.
Qed.

Lemma unprivileged_text_is_removed_from_suggestions_witness :
  let w := fst (post small_guild 7 (Message luis "hola" [] [] None)) in
  let after := on_message two_messages Written (init no_files) no_files w
                          (Incoming 1000 7 (Some "sugerencias") luis "hola") in
  fetch w 7 1000 = Some (Message luis "hola" [] [] None)
  /\ snd after = RemovedFromSuggestions
  /\ fetch (snd (fst after)) 7 1000 = None.
Proof.
  intros w after.
  destruct (unprivileged_text_is_removed_from_suggestions two_messages Written
              (init no_files) no_files w
              (Incoming 1000 7 (Some "sugerencias") luis "hola"))
    as (E & Hgone & _).
  - reflexivity.
  - reflexivity.
  - reflexivity.
  - reflexivity.
  - reflexivity.
  - split; [reflexivity |]. split; [| exact Hgone].
    fold after in E. rewrite E. reflexivity.
Defined.

(** X12. A test command of a member is answered wherever it is written, also
    in the monitored channel and without the role: nothing is counted
    or written, no message is removed, and only when the welcome channel
    exists are messages posted. *)
Theorem test_command_only_posts
    (cfg : config) (io : write_outcome) (b : bot) (d : disk) (w : world)
    (m : incoming) :
  is_bot (in_author m) = false ->
  is_test_command (in_content m) = true ->
  let after := on_message cfg io b d w m in
  after = (b, d, snd (fst after),
           TestCommand (bool_decide (is_Some (get_channel w welcome_channel_id))))
  /\ (get_channel w welcome_channel_id = None -> snd (fst after) = w)
  /\ (forall k, messages_of w k `prefix_of` messages_of (snd (fst after)) k).
Proof.
  intros Hbot Htest after.
  assert (Hcommand : forall text confirmation,
             let r := test_command w m text confirmation in
             snd r = TestCommand (bool_decide (is_Some (get_channel w welcome_channel_id)))
             /\ (get_channel w welcome_channel_id = None -> fst r = w)
             /\ (forall k, messages_of w k `prefix_of` messages_of (fst r) k)).
  { intros text confirmation. unfold test_command.
    destruct (get_channel w welcome_channel_id) as [c |] eqn:E; cbn [fst snd].
    - split; [reflexivity |]. split; [discriminate |].
      intros k. etransitivity; apply messages_of_send_prefix.
    - split; [reflexivity |]. split; [reflexivity |]. reflexivity. }
  unfold is_test_command in Htest.
  unfold after, on_message. rewrite Hbot.
  destruct (bool_decide (strip (lower (in_content m)) = "/test bienvenida")
            || bool_decide (strip (lower (in_content m)) = "test bienvenida")) eqn:E1.
  - specialize (Hcommand (welcome_message (in_author m)) "Mensaje de bienvenida enviado.").
    destruct (test_command w m _ _) as [w1 o]. simpl in *.
    destruct Hcommand as (-> & Hnone & Hprefix). auto.
  - simpl in Htest. rewrite Htest.
    specialize (Hcommand (goodbye_message (in_author m)) "Mensaje de despedida enviado.").
    destruct (test_command w m _ _) as [w1 o]. simpl in *.
    destruct Hcommand as (-> & Hnone & Hprefix). auto.
Qed.

Lemma test_command_only_posts_witness :
  let w := fst (post small_guild 7 (Message luis " Test Bienvenida" [] [] None)) in
  on_message two_messages Written (init no_files) no_files w
             (Incoming 1000 7 (Some "sugerencias") luis " Test Bienvenida")
  = (init no_files, no_files, w, TestCommand false).
Proof.
  intros w.
  destruct (test_command_only_posts two_messages Written (init no_files) no_files w
              (Incoming 1000 7 (Some "sugerencias") luis " Test Bienvenida"))
    as (E & Hsame & _).
  - reflexivity.
  - reflexivity.
  - rewrite E. rewrite Hsame; reflexivity.
Defined.

End MessageGates.

Section TicketChannelGate.

(** X13. Outside the monitored channel, a message of a member (not a test
    command) is never removed when the author has the role, or is the
    recorded creator of the ticket of that channel, or when
    [tickets.json] has no record for the channel: the handler goes on to
    the help counter, writes no file and removes no message. *)
Theorem ticket_creator_and_admins_are_not_removed
    (cfg : config) (io : write_outcome) (b : bot) (d : disk) (w : world)
    (m : incoming) :
  is_bot (in_author m) = false ->
  is_test_command (in_content m) = false ->
  in_channel m <> CHANNEL_ID cfg ->
  let record := read_file (tickets_file d)
                ≫= (fun data => doc_tickets data !! in_channel m) in
  has_required_role (in_author m) = true
  \/ (exists ticket_info, record = Some ticket_info
                          /\ user_id (in_author m) = t_creator_id ticket_info)
  \/ record = None ->
  let after := on_message cfg io b d w m in
  (exists help, snd after = Forwarded help)
  /\ snd (fst (fst after)) = d
  /\ (forall k, messages_of w k `prefix_of` messages_of (snd (fst after)) k).
Proof.
  intros Hbot Htest Hch record Hallowed after.
  assert (Hpass : removed_from_ticket d m = false).
  { unfold removed_from_ticket. fold record.
    destruct (in_channel_name m) as [name |]; [| reflexivity].
    destruct Hallowed as [Hrole | [(ticket_info & -> & Hcreator) | ->]].
    - rewrite Hrole. simpl. rewrite andb_false_r. reflexivity.
    - rewrite bool_decide_eq_false_2 by tauto. apply andb_false_r.
    - apply andb_false_r. }
  apply is_test_command_false in Htest as [Hwelcome Hgoodbye].
  destruct (ticket_gate_passes b d w m Hpass) as (b1 & Egate & _ & _).
  unfold after, on_message.
  rewrite Hbot, Hwelcome, Hgoodbye, Egate.
  rewrite bool_decide_eq_false_2 by exact Hch.
  unfold help_block.
  destruct (_ && _); [destruct (_ <=? _) |]; cbn [fst snd];
    (split; [eexists; reflexivity | split; [reflexivity |]]);
    intros k; try reflexivity.
  apply messages_of_send_prefix.
Qed.

Lemma ticket_creator_and_admins_are_not_removed_witness :
  snd (on_message two_messages Written one_ticket_bot one_ticket_disk one_ticket_world
                  (Incoming 2000 1000 (Some (ticket_prefix +:+ "0001")) luis "hola"))
  = Forwarded false.
Proof.
  destruct (ticket_creator_and_admins_are_not_removed two_messages Written
              one_ticket_bot one_ticket_disk one_ticket_world
              (Incoming 2000 1000 (Some (ticket_prefix +:+ "0001")) luis "hola"))
    as ((help & Hhelp) & _ & _).
  - reflexivity.
  - reflexivity.
  - discriminate.
  - right. left. eexists. split; reflexivity.
  - rewrite Hhelp. vm_compute in Hhelp. injection Hhelp as <-. reflexivity.
Defined.

(** X14. In a channel named like a ticket for which [tickets.json] holds a
    record, the message of a member who has not the role and is not the
    recorded creator is deleted: it can no longer be fetched, no message
    is left that was not there before, nothing is counted and no file is
    written. The bot's ticket counter becomes the stored one. *)
Theorem others_are_removed_from_ticket_channels
    (cfg : config) (io : write_outcome) (b : bot) (d : disk) (w : world)
    (m : incoming) (name : string) (data : tickets_doc) (ticket_info : ticket) :
  is_bot (in_author m) = false ->
  is_test_command (in_content m) = false ->
  in_channel m <> CHANNEL_ID cfg ->
  in_channel_name m = Some name ->
  startswith name ticket_prefix = true ->
  has_required_role (in_author m) = false ->
  read_file (tickets_file d) = Some data ->
  doc_tickets data !! in_channel m = Some ticket_info ->
  user_id (in_author m) <> t_creator_id ticket_info ->
  let after := on_message cfg io b d w m in
  after = (set_ticket_counter b (doc_counter data), d, snd (fst after), RemovedFromTicket)
  /\ fetch (snd (fst after)) (in_channel m) (in_id m) = None
  /\ (forall k p, p ∈ messages_of (snd (fst after)) k -> p ∈ messages_of w k).
Proof.
  intros Hbot Htest Hch Hname Hprefix Hrole Hfile Hrecord Hother after.
  apply is_test_command_false in Htest as [Hwelcome Hgoodbye].
  assert (E : after
              = (set_ticket_counter b (doc_counter data), d,
                 remove_with_warning w m (ticket_warning (in_author m)),
                 RemovedFromTicket)).
  { unfold after, on_message, ticket_gate, load_tickets.
    rewrite Hbot, Hwelcome, Hgoodbye, Hname, Hprefix, Hrole, Hfile.
    rewrite bool_decide_eq_false_2 by exact Hch.
    simpl. rewrite Hrecord.
    rewrite bool_decide_eq_true_2 by exact Hother. reflexivity. }
  rewrite E. cbn [fst snd]. split; [reflexivity |]. split.
  - apply fetch_after_remove_with_warning.
  - intros k p. apply remove_with_warning_keeps_nothing_new.
Qed.

Lemma others_are_removed_from_ticket_channels_witness :
  snd (on_message two_messages Written one_ticket_bot one_ticket_disk one_ticket_world
                  (Incoming 2000 1000 (Some (ticket_prefix +:+ "0001")) marta "hola"))
  = RemovedFromTicket.
Proof.
  destruct (others_are_removed_from_ticket_channels two_messages Written
              one_ticket_bot one_ticket_disk one_ticket_world
              (Incoming 2000 1000 (Some (ticket_prefix +:+ "0001")) marta "hola")
              (ticket_prefix +:+ "0001")
              (TicketsDoc 1 {[1000 := Ticket 1 2 "Luis" "no puedo entrar"
                                             "2024-01-01T10:00:00" "open" None None]})
              (Ticket 1 2 "Luis" "no puedo entrar" "2024-01-01T10:00:00" "open" None None))
    as (E & _ & _).
  - reflexivity.
  - reflexivity.
  - discriminate.
  - reflexivity.
  - reflexivity.
  - reflexivity.
  - reflexivity.
  - reflexivity.
  - discriminate.
  - rewrite E. reflexivity.
Defined.

End TicketChannelGate.

(** ** Suggestions *)

Section SuggestionsMore.

Lemma count_votes_app (l l' : list (string * Z)) :
  forall upvotes downvotes,
    count_votes (l ++ l') upvotes downvotes
    = count_votes l' (fst (count_votes l upvotes downvotes))
                     (snd (count_votes l upvotes downvotes)).
Proof.
  induction l as [| [emoji count] rest IH]; intros upvotes downvotes;
    [reflexivity |].
  simpl. destruct (bool_decide (emoji = thumbs_up)); [apply IH |].
  destruct (bool_decide (emoji = thumbs_down)); apply IH.
Qed.

(** X15. The tally of the votes on a card: a thumbs-up reaction sets the
    upvotes to its count less the bot's own reaction, a thumbs-down
    reaction does the same for the downvotes, and a reaction with any
    other emoji is passed over; so each tally is that of the last
    reaction with its emoji, and the two reactions the bot leaves on a
    card are tallied apart. *)
Theorem count_votes_tallies_each_emoji
    (reactions : list (string * Z)) (upvotes downvotes : Z) :
  (forall n, count_votes (reactions ++ [(thumbs_up, n)]) upvotes downvotes
             = (n - 1, snd (count_votes reactions upvotes downvotes)))
  /\ (forall n, count_votes (reactions ++ [(thumbs_down, n)]) upvotes downvotes
                = (fst (count_votes reactions upvotes downvotes), n - 1))
  /\ (forall emoji n,
         emoji <> thumbs_up -> emoji <> thumbs_down ->
         count_votes (reactions ++ [(emoji, n)]) upvotes downvotes
         = count_votes reactions upvotes downvotes)
  /\ (Forall (fun r => fst r <> thumbs_up /\ fst r <> thumbs_down) reactions ->
      count_votes reactions upvotes downvotes = (upvotes, downvotes))
  /\ (forall up down,
        count_votes [(thumbs_up, up); (thumbs_down, down)] upvotes downvotes
        = (up - 1, down - 1)).
Proof.
  split; [| split; [| split; [| split]]].
  - intros n. rewrite count_votes_app. reflexivity.
  - intros n. rewrite count_votes_app. reflexivity.
  - intros emoji n Hup Hdown. rewrite count_votes_app. simpl.
    rewrite (bool_decide_eq_false_2 _ Hup), (bool_decide_eq_false_2 _ Hdown).
    destruct (count_votes reactions upvotes downvotes). reflexivity.
  - intros Hnone. revert upvotes downvotes.
    induction Hnone as [| [emoji count] rest [Hup Hdown] _ IH];
      intros upvotes downvotes; [reflexivity |].
    simpl in *.
    rewrite (bool_decide_eq_false_2 _ Hup), (bool_decide_eq_false_2 _ Hdown).
    apply IH.
  - intros up down. reflexivity.
Qed.

Lemma count_votes_tallies_each_emoji_witness :
  count_votes [(thumbs_up, 3); ("x", 4)] 0 0 = (2, 0)
  /\ count_votes [(thumbs_up, 3); (thumbs_down, 5)] 0 0 = (2, 4)
  /\ count_votes [("x", 4); ("y", 2)] 0 0 = (0, 0).
Proof.
  destruct (count_votes_tallies_each_emoji [(thumbs_up, 3)] 0 0)
    as (_ & Hdown & Hother & _ & _).
  destruct (count_votes_tallies_each_emoji [("x", 4); ("y", 2)] 0 0)
    as (_ & _ & _ & Hnone & _).
  split; [| split].
  - assert (Hup : "x" <> thumbs_up) by discriminate.
    assert (Hx : "x" <> thumbs_down) by discriminate.
    exact (Hother "x" 4 Hup Hx).
  - exact (Hdown 5).
  - apply Hnone. repeat constructor; discriminate.
Defined.

Lemma find_app_found (l l' : list (Z * message)) (mid : Z) (p : Z * message) :
  List.find (fun p => bool_decide (fst p = mid)) l = Some p ->
  List.find (fun p => bool_decide (fst p = mid)) (l ++ l') = Some p.
Proof.
  induction l as [| q l IH]; [discriminate |].
  simpl. destruct (bool_decide (fst q = mid)); [auto | exact IH].
Qed.

Lemma find_app_absent (l l' : list (Z * message)) (mid : Z) :
  List.find (fun p => bool_decide (fst p = mid)) l = None ->
  List.find (fun p => bool_decide (fst p = mid)) (l ++ l')
  = List.find (fun p => bool_decide (fst p = mid)) l'.
Proof.
  induction l as [| q l IH]; [reflexivity |].
  simpl. destruct (bool_decide (fst q = mid)); [discriminate | exact IH].
Qed.

(** A message just posted in an existing channel is fetched under the
    identifier it was given. *)
Lemma fetch_posted (w : world) (ch : Z) (m : message) :
  is_Some (get_channel w ch) ->
  next_id_is_new w ch ->
  fetch (fst (post w ch m)) ch (w_next_id w) = Some m.
Proof.
  intros Hch Hnew. rewrite fetch_messages_of, messages_of_post.
  rewrite bool_decide_eq_true_2 by (split; [reflexivity | exact Hch]).
  rewrite find_app_absent.
  - simpl. rewrite bool_decide_eq_true_2 by reflexivity. reflexivity.
  - apply find_absent. intros p Hp.
    unfold next_id_is_new in Hnew. rewrite Forall_forall in Hnew.
    apply Hnew. apply list_elem_of_In. exact Hp.
Qed.

(** Posting elsewhere, or later, does not change what is fetched. *)
Lemma fetch_after_post (w : world) (ch' : Z) (m' : message) (ch mid : Z) (m : message) :
  fetch w ch mid = Some m ->
  fetch (fst (post w ch' m')) ch mid = Some m.
Proof.
  rewrite !fetch_messages_of, messages_of_post. intros H.
  destruct (List.find _ (messages_of w ch)) as [p |] eqn:E; [| discriminate].
  rewrite (find_app_found _ _ _ _ E). exact H.
Qed.

Lemma find_map_message (f : message -> message) (mid : Z) (l : list (Z * message)) :
  List.find (fun p => bool_decide (fst p = mid))
            (List.map (fun p => if bool_decide (fst p = mid)
                                then (fst p, f (snd p)) else p) l)
  = (fun p => (fst p, f (snd p))) <$> List.find (fun p => bool_decide (fst p = mid)) l.
Proof.
  induction l as [| p l IH]; [reflexivity |].
  simpl. destruct (bool_decide (fst p = mid)) eqn:E; simpl; rewrite E; [reflexivity |].
  exact IH.
Qed.

Lemma fetch_map_message (w : world) (f : message -> message) (ch mid : Z) :
  fetch (set_channels w (alter (map_message f mid) ch (w_channels w))) ch mid
  = f <$> fetch w ch mid.
Proof.
  unfold fetch, get_channel. simpl. rewrite lookup_alter_eq.
  destruct (w_channels w !! ch) as [c |]; [| reflexivity].
  simpl. unfold fetch_message, map_message. simpl. rewrite find_map_message.
  destruct (List.find _ (ch_messages c)); reflexivity.
Qed.

Lemma get_channel_map_message (w : world) (f : message -> message) (ch mid k : Z) :
  get_channel (set_channels w (alter (map_message f mid) ch (w_channels w))) k = None
  <-> get_channel w k = None.
Proof. unfold get_channel. simpl. apply lookup_alter_None. Qed.

Lemma get_channel_post (w : world) (ch : Z) (m : message) (k : Z) :
  get_channel (fst (post w ch m)) k = None <-> get_channel w k = None.
Proof. unfold get_channel, post. simpl. apply lookup_alter_None. Qed.

(** What a resolution that is let through does. *)
Lemma suggest_resolve_runs (v : verdict) (io : write_outcome) (now : clock)
    (d : disk) (w : world) (i : interaction) (message_id : Z)
    (record : suggestion) (message : message) (e : embed) (rest : list embed) :
  has_required_role (i_user i) = true ->
  load_suggestions d !! message_id = Some record ->
  fetch w (s_channel_id record) message_id = Some message ->
  msg_embeds message = e :: rest ->
  let votes := count_votes (msg_reactions message) 0 0 in
  let embed := reviewed_embed v now (i_user i) (fst votes) (snd votes) e in
  suggest_resolve v io now d w i message_id
  = (save_suggestions io d
       (<[message_id :=
            Suggestion (s_user_id record) (s_user_name record) (s_suggestion record)
                       (v_status v) (s_created_at record) (s_channel_id record)
                       (Some (user_id (i_user i))) (Some (iso now)) (Some true)
                       (Some votes)]> (load_suggestions d)),
     match get_channel w suggestions_results_channel_id with
     | Some _ =>
         delete_message (fst (send w suggestions_results_channel_id "" [embed]))
                        (s_channel_id record) message_id
     | None => edit_message w (s_channel_id record) message_id embed
     end,
     v_reply v).
Proof.
  intros Hrole Hrecord Hfetch Hembeds votes embed.
  unfold suggest_resolve. rewrite Hrole, Hrecord. simpl.
  unfold fetch in Hfetch. rewrite Hfetch. fold votes.
  destruct votes as [upvotes downvotes] eqn:Ev. rewrite Hembeds.
  subst embed. simpl. reflexivity.
Qed.

Lemma suggest_resolve_done (v : verdict) (io : write_outcome) (now : clock)
    (d d1 : disk) (w w1 : world) (i : interaction) (message_id : Z) :
  v_reply v = SugerenciaAceptada \/ v_reply v = SugerenciaRechazada ->
  suggest_resolve v io now d w i message_id = (d1, w1, v_reply v) ->
  exists record message e rest,
    has_required_role (i_user i) = true
    /\ load_suggestions d !! message_id = Some record
    /\ fetch w (s_channel_id record) message_id = Some message
    /\ msg_embeds message = e :: rest.
Proof.
  intros Hreply. unfold suggest_resolve, fetch.
  destruct (has_required_role (i_user i)) eqn:Hrole; simpl;
    [| intros E; destruct Hreply as [Hv | Hv]; rewrite Hv in E; discriminate E].
  destruct (load_suggestions d !! message_id) as [record |] eqn:Hrecord;
    [| intros E; destruct Hreply as [Hv | Hv]; rewrite Hv in E; discriminate E].
  destruct (get_channel w (s_channel_id record) ≫= _) as [message |] eqn:Hfetch;
    [| intros E; destruct Hreply as [Hv | Hv]; rewrite Hv in E; discriminate E].
  destruct (count_votes (msg_reactions message) 0 0) as [upvotes downvotes].
  destruct (msg_embeds message) as [| e rest] eqn:Ee;
    [intros E; destruct Hreply as [Hv | Hv]; rewrite Hv in E; discriminate E |].
  intros _. exists record, message, e, rest.
  split; [reflexivity |]. split; [reflexivity |]. split; [exact Hfetch | exact Ee].
Qed.

Lemma resolve_verdict (accept : bool) :
  exists v, resolve accept = suggest_resolve v
            /\ accepted_reply accept = v_reply v
            /\ (if accept then "accepted" else "denied") = v_status v
            /\ (v_reply v = SugerenciaAceptada \/ v_reply v = SugerenciaRechazada).
Proof.
  destruct accept; [exists accept_verdict | exists deny_verdict]; repeat split; auto.
Qed.

(** X16. When the results channel is missing, a suggestion that was resolved
    (and written) can be resolved again by any member with the role, by
    either command: the card stayed in its channel, the second command
    is answered as a success, and the record takes the status, the
    reviewer and the time of the second resolution. *)
Theorem resolved_in_place_can_be_resolved_again
    (accept1 accept2 : bool) (now1 now2 : clock) (d d1 : disk) (w w1 : world)
    (i1 i2 : interaction) (message_id : Z) :
  get_channel w suggestions_results_channel_id = None ->
  resolve accept1 Written now1 d w i1 message_id = (d1, w1, accepted_reply accept1) ->
  has_required_role (i_user i2) = true ->
  let after := resolve accept2 Written now2 d1 w1 i2 message_id in
  snd after = accepted_reply accept2
  /\ exists record,
       load_suggestions (fst (fst after)) !! message_id = Some record
       /\ s_status record = (if accept2 then "accepted" else "denied")
       /\ s_reviewed_by record = Some (user_id (i_user i2))
       /\ s_reviewed_at record = Some (iso now2).
Proof.
  intros Hresults Hfirst Hrole2 after.
  destruct (resolve_verdict accept1) as (v1 & Ev1 & Er1 & _ & Hv1).
  destruct (resolve_verdict accept2) as (v2 & Ev2 & Er2 & Es2 & _).
  rewrite Ev1, Er1 in Hfirst.
  destruct (suggest_resolve_done v1 Written now1 d d1 w w1 i1 message_id Hv1 Hfirst)
    as (record & message & e & rest & Hrole1 & Hrecord & Hfetch & Hembeds).
  rewrite (suggest_resolve_runs v1 Written now1 d w i1 message_id record message e rest
             Hrole1 Hrecord Hfetch Hembeds) in Hfirst.
  rewrite Hresults in Hfirst. injection Hfirst as <- <-.
  set (record1 := Suggestion (s_user_id record) (s_user_name record)
                    (s_suggestion record) (v_status v1) (s_created_at record)
                    (s_channel_id record) (Some (user_id (i_user i1)))
                    (Some (iso now1)) (Some true)
                    (Some (count_votes (msg_reactions message) 0 0))) in *.
  set (embed1 := reviewed_embed v1 now1 (i_user i1)
                   (fst (count_votes (msg_reactions message) 0 0))
                   (snd (count_votes (msg_reactions message) 0 0)) e) in *.
  set (d1 := save_suggestions Written d (<[message_id := record1]> (load_suggestions d)))
    in *.
  set (w1 := edit_message w (s_channel_id record) message_id embed1) in *.
  assert (Hrecord1 : load_suggestions d1 !! message_id = Some record1).
  { unfold d1, load_suggestions at 1. simpl. apply lookup_insert_eq. }
  assert (Hfetch1 : fetch w1 (s_channel_id record1) message_id
                    = Some (Message (msg_author message) (msg_content message) [embed1]
                                    (msg_reactions message) (msg_file message))).
  { unfold w1, edit_message. simpl s_channel_id.
    rewrite fetch_map_message, Hfetch. reflexivity. }
  unfold after. rewrite Ev2, Er2, Es2.
  rewrite (suggest_resolve_runs v2 Written now2 d1 w1 i2 message_id record1 _ embed1 []
             Hrole2 Hrecord1 Hfetch1 eq_refl).
  cbn [fst snd]. split; [reflexivity |].
  eexists. split.
  - unfold load_suggestions at 1. simpl. apply lookup_insert_eq.
  - repeat split.
Qed.

Lemma resolved_in_place_can_be_resolved_again_witness :
  let first := resolve true Written monday one_suggestion_disk one_suggestion_world
                       (Interaction ana 7 "sugerencias") 1000 in
  snd (resolve false Written tuesday (fst (fst first)) (snd (fst first))
               (Interaction eva 7 "sugerencias") 1000)
  = SugerenciaRechazada.
Proof.
  intros first.
  apply (resolved_in_place_can_be_resolved_again true false monday tuesday
           one_suggestion_disk (fst (fst first)) one_suggestion_world (snd (fst first))
           (Interaction ana 7 "sugerencias") (Interaction eva 7 "sugerencias") 1000).
  - reflexivity.
  - vm_compute. reflexivity.
  - reflexivity.
Defined.

Lemma suggest_create_disk (cfg : config) (io : write_outcome) (now : clock)
    (b : bot) (d : disk) (w : world) (i : interaction) (sugerencia : string) :
  snd (fst (fst (suggest_create cfg io now b d w i sugerencia)))
  = save_suggestions io d
      (<[w_next_id w :=
           Suggestion (user_id (i_user i)) (display_name (i_user i)) sugerencia
                      "pending" (iso now) (i_channel_id i) None None None None]>
         (load_suggestions d)).
Proof.
  cbv beta iota zeta delta [suggest_create send post].
  destruct (_ <=? _); [destruct (get_channel _ _) |]; reflexivity.
Qed.

Lemma suggest_create_world (cfg : config) (io : write_outcome) (now : clock)
    (b : bot) (d : disk) (w : world) (i : interaction) (sugerencia : string) :
  let card :=
    Message (w_me w) ""
            [Embed "ğŸ’¡ Nueva Sugerencia" sugerencia 3447003
                   "Reacciona con ğŸ‘ o ğŸ‘ para votar â€¢ Estado: Pendiente" []]
            [] None in
  let w3 :=
    add_reaction
      (add_reaction (fst (post w (i_channel_id i) card)) (i_channel_id i)
                    (w_next_id w) thumbs_up)
      (i_channel_id i) (w_next_id w) thumbs_down in
  snd (fst (suggest_create cfg io now b d w i sugerencia)) = w3
  \/ snd (fst (suggest_create cfg io now b d w i sugerencia))
     = fst (post w3 (CHANNEL_ID cfg) (Message (w_me w3) suggestion_reminder [] [] None)).
Proof.
  intros card w3.
  cbv beta iota zeta delta [suggest_create send post].
  destruct (_ <=? _); [destruct (get_channel _ _) |];
    [right; reflexivity | left; reflexivity | left; reflexivity].
Qed.

(** X17. [/suggest create] in an existing channel stores a pending record
    under the identifier of the card it posts and leaves the other
    records alone; the card can then be resolved by a member with the
    role, with either command, and the record gets the status, the
    reviewer, the time and a tally of no votes. *)
Theorem new_suggestion_is_pending_and_can_be_resolved
    (cfg : config) (now1 now2 : clock) (b : bot) (d : disk) (w : world)
    (i1 i2 : interaction) (sugerencia : string) (accept : bool) :
  is_Some (get_channel w (i_channel_id i1)) ->
  next_id_is_new w (i_channel_id i1) ->
  has_required_role (i_user i2) = true ->
  let created := suggest_create cfg Written now1 b d w i1 sugerencia in
  let stored := load_suggestions (snd (fst (fst created))) in
  let after :=
    resolve accept Written now2 (snd (fst (fst created))) (snd (fst created)) i2
            (w_next_id w) in
  stored !! w_next_id w
  = Some (Suggestion (user_id (i_user i1)) (display_name (i_user i1)) sugerencia
                     "pending" (iso now1) (i_channel_id i1) None None None None)
  /\ (forall other, other <> w_next_id w ->
        stored !! other = load_suggestions d !! other)
  /\ snd after = accepted_reply accept
  /\ load_suggestions (fst (fst after)) !! w_next_id w
     = Some (Suggestion (user_id (i_user i1)) (display_name (i_user i1)) sugerencia
                        (if accept then "accepted" else "denied") (iso now1)
                        (i_channel_id i1) (Some (user_id (i_user i2)))
                        (Some (iso now2)) (Some true) (Some (0, 0))).
Proof.
  intros Hchannel Hnew Hrole created stored after.
  set (pending := Suggestion (user_id (i_user i1)) (display_name (i_user i1)) sugerencia
                    "pending" (iso now1) (i_channel_id i1) None None None None).
  assert (Hdisk : snd (fst (fst created))
                  = save_suggestions Written d
                      (<[w_next_id w := pending]> (load_suggestions d)))
    by apply suggest_create_disk.
  assert (Hstored : stored = <[w_next_id w := pending]> (load_suggestions d)).
  { unfold stored. rewrite Hdisk. reflexivity. }
  assert (Hpending : load_suggestions (snd (fst (fst created))) !! w_next_id w
                     = Some pending).
  { fold stored. rewrite Hstored. apply lookup_insert_eq. }
  set (embed := Embed "ğŸ’¡ Nueva Sugerencia" sugerencia 3447003
                  "Reacciona con ğŸ‘ o ğŸ‘ para votar â€¢ Estado: Pendiente" []).
  assert (Hfetch : fetch (snd (fst created)) (s_channel_id pending) (w_next_id w)
                   = Some (Message (w_me w) "" [embed]
                                   [(thumbs_up, 1); (thumbs_down, 1)] None)).
  { assert (H3 : fetch
                   (add_reaction
                      (add_reaction
                         (fst (post w (i_channel_id i1) (Message (w_me w) "" [embed] [] None)))
                         (i_channel_id i1) (w_next_id w) thumbs_up)
                      (i_channel_id i1) (w_next_id w) thumbs_down)
                   (i_channel_id i1) (w_next_id w)
                 = Some (Message (w_me w) "" [embed]
                                   [(thumbs_up, 1); (thumbs_down, 1)] None)).
    { unfold add_reaction at 1. rewrite fetch_map_message.
      unfold add_reaction at 1. rewrite fetch_map_message.
      rewrite (fetch_posted w (i_channel_id i1) _ Hchannel Hnew). reflexivity. }
    destruct (suggest_create_world cfg Written now1 b d w i1 sugerencia) as [E | E];
      unfold created; rewrite E; simpl s_channel_id.
    - exact H3.
    - apply fetch_after_post. exact H3. }
  destruct (resolve_verdict accept) as (v & Ev & Er & Es & _).
  assert (Eafter : after
                   = suggest_resolve v Written now2 (snd (fst (fst created)))
                       (snd (fst created)) i2 (w_next_id w))
    by (unfold after; rewrite Ev; reflexivity).
  rewrite (suggest_resolve_runs v Written now2 _ _ i2 (w_next_id w) pending _ embed []
             Hrole Hpending Hfetch eq_refl) in Eafter.
  rewrite Eafter, Er, Es. cbn [fst snd].
  split; [rewrite Hstored; apply lookup_insert_eq |].
  split; [intros other Hother; rewrite Hstored;
          rewrite lookup_insert_ne by congruence; reflexivity |].
  split; [reflexivity |].
  unfold load_suggestions at 1. simpl. rewrite lookup_insert_eq. reflexivity.
Qed.

Lemma new_suggestion_is_pending_and_can_be_resolved_witness :
  let created := suggest_create two_messages Written monday (init no_files) no_files
                                guild_with_results (Interaction luis 7 "sugerencias")
                                "mas canales de voz" in
  snd (resolve true Written tuesday (snd (fst (fst created))) (snd (fst created))
               (Interaction ana 7 "sugerencias") 1000)
  = SugerenciaAceptada.
Proof.
  intros created.
  destruct (new_suggestion_is_pending_and_can_be_resolved two_messages monday tuesday
              (init no_files) no_files guild_with_results
              (Interaction luis 7 "sugerencias") (Interaction ana 7 "sugerencias")
              "mas canales de voz" true) as (_ & _ & Hreply & _).
  - eexists. reflexivity.
  - constructor.
  - reflexivity.
  - exact Hreply.
Defined.

End SuggestionsMore.

(** ** Tickets *)

Section TicketsMore.

(** Without the fields of a closed ticket the transcript ends in its
    own [except] before anything is sent. *)
Lemma generate_transcript_never_closed (w : world) (ch : Z) (ticket_info : ticket) :
  t_closed_by ticket_info = None ->
  generate_transcript w ch ticket_info = w.
Proof.
  intros Hopen. unfold generate_transcript.
  destruct (List.find _ _) as [[transcript_channel c] |]; [| reflexivity].
  rewrite Hopen. reflexivity.
Qed.

(** What [/ticket cerrar] does once it is let through. *)
Lemma close_ticket_runs (io : write_outcome) (now : clock) (b : bot) (d : disk)
    (w : world) (i : interaction) (data : tickets_doc) (ticket_info : ticket) :
  has_required_role (i_user i) = true ->
  startswith (i_channel_name i) ticket_prefix = true ->
  read_file (tickets_file d) = Some data ->
  doc_tickets data !! i_channel_id i = Some ticket_info ->
  close_ticket io now b d w i
  = (set_ticket_counter b (doc_counter data),
     save_tickets io (set_ticket_counter b (doc_counter data)) d
       (<[i_channel_id i :=
            Ticket (t_number ticket_info) (t_creator_id ticket_info)
                   (t_creator_name ticket_info) (t_motivo ticket_info)
                   (t_created_at ticket_info) "closed"
                   (Some (user_id (i_user i))) (Some (iso now))]> (doc_tickets data)),
     delete_channel (generate_transcript w (i_channel_id i) ticket_info) (i_channel_id i),
     TicketCerrado).
Proof.
  intros Hrole Hname Hfile Hrecord. unfold close_ticket, load_tickets.
  rewrite Hrole, Hname, Hfile. simpl. rewrite Hrecord. reflexivity.
Qed.

(** X18. [/ticket cerrar] on a ticket that was not closed before: the record
    is marked closed with the closer and the time and keeps its number,
    creator and reason, the other records stay, the channel is deleted,
    and no transcript is posted: the guild differs from the one before
    by the deleted channel alone, because the transcript is built from
    the record before the closing fields are set. *)
Theorem first_close_posts_no_transcript
    (now : clock) (b : bot) (d : disk) (w : world) (i : interaction)
    (data : tickets_doc) (ticket_info : ticket) :
  has_required_role (i_user i) = true ->
  startswith (i_channel_name i) ticket_prefix = true ->
  read_file (tickets_file d) = Some data ->
  doc_tickets data !! i_channel_id i = Some ticket_info ->
  t_closed_by ticket_info = None ->
  let after := close_ticket Written now b d w i in
  let stored := snd (load_tickets b (snd (fst (fst after)))) in
  snd after = TicketCerrado
  /\ snd (fst after) = delete_channel w (i_channel_id i)
  /\ get_channel (snd (fst after)) (i_channel_id i) = None
  /\ stored !! i_channel_id i
     = Some (Ticket (t_number ticket_info) (t_creator_id ticket_info)
                    (t_creator_name ticket_info) (t_motivo ticket_info)
                    (t_created_at ticket_info) "closed"
                    (Some (user_id (i_user i))) (Some (iso now)))
  /\ (forall other, other <> i_channel_id i ->
        stored !! other = doc_tickets data !! other).
Proof.
  intros Hrole Hname Hfile Hrecord Hopen after stored.
  unfold stored, after.
  rewrite (close_ticket_runs Written now b d w i data ticket_info
             Hrole Hname Hfile Hrecord).
  rewrite (generate_transcript_never_closed w _ _ Hopen).
  cbn [fst snd]. unfold load_tickets. simpl.
  split; [reflexivity |]. split; [reflexivity |]. split.
  - unfold get_channel, delete_channel. simpl. apply lookup_delete_eq.
  - split; [apply lookup_insert_eq |].
    intros other Hother. rewrite lookup_insert_ne by congruence. reflexivity.
Qed.

Lemma first_close_posts_no_transcript_witness :
  let after := close_ticket Written tuesday one_ticket_bot one_ticket_disk
                            one_ticket_world
                            (Interaction ana 1000 (ticket_prefix +:+ "0001")) in
  snd after = TicketCerrado
  /\ snd (fst after) = delete_channel one_ticket_world 1000.
Proof.
  intros after.
  destruct (first_close_posts_no_transcript tuesday one_ticket_bot one_ticket_disk
              one_ticket_world (Interaction ana 1000 (ticket_prefix +:+ "0001"))
              (TicketsDoc 1 {[1000 := Ticket 1 2 "Luis" "no puedo entrar"
                                             "2024-01-01T10:00:00" "open" None None]})
              (Ticket 1 2 "Luis" "no puedo entrar" "2024-01-01T10:00:00" "open" None None))
    as (Hreply & Hworld & _).
  - reflexivity.
  - reflexivity.
  - reflexivity.
  - reflexivity.
  - reflexivity.
  - exact (conj Hreply Hworld).
Defined.

Lemma prefix_append (p s : string) : String.prefix p (p +:+ s) = true.
Proof.
  induction p as [| a p IH]; [destruct s; reflexivity |].
  simpl. destruct (ascii_dec a a); [exact IH | congruence].
Qed.

(** X19. A ticket opened by [/ticket crear] gets a channel named after its
    number and an open record under the identifier of that channel; a
    member with the role can then close it from that channel: the
    channel is gone and the record is kept as closed, with its number,
    creator and reason. *)
Theorem created_ticket_can_be_closed
    (now1 now2 : clock) (b : bot) (d : disk) (w : world) (i1 i2 : interaction)
    (reason : string) :
  has_required_role (i_user i2) = true ->
  i_channel_id i2 = w_next_id w ->
  i_channel_name i2 = ticket_prefix +:+ fmt04 (ticket_counter b + 1) ->
  let created := create_ticket Written now1 b d w i1 reason in
  let after :=
    close_ticket Written now2 (fst (fst (fst created))) (snd (fst (fst created)))
                 (snd (fst created)) i2 in
  snd created = TicketCreado (ticket_counter b + 1) (w_next_id w)
  /\ ch_name <$> get_channel (snd (fst created)) (w_next_id w)
     = Some (i_channel_name i2)
  /\ snd (load_tickets b (snd (fst (fst created)))) !! w_next_id w
     = Some (Ticket (ticket_counter b + 1) (user_id (i_user i1))
                    (display_name (i_user i1)) reason (iso now1) "open" None None)
  /\ snd after = TicketCerrado
  /\ get_channel (snd (fst after)) (w_next_id w) = None
  /\ snd (load_tickets b (snd (fst (fst after)))) !! w_next_id w
     = Some (Ticket (ticket_counter b + 1) (user_id (i_user i1))
                    (display_name (i_user i1)) reason (iso now1) "closed"
                    (Some (user_id (i_user i2))) (Some (iso now2))).
Proof.
  intros Hrole Hid Hname created after.
  set (opened := Ticket (ticket_counter b + 1) (user_id (i_user i1))
                   (display_name (i_user i1)) reason (iso now1) "open" None None).
  set (b0 := set_ticket_counter b (ticket_counter b + 1)).
  assert (Hcreated : exists w1,
             created
             = (fst (load_tickets b0 d),
                save_tickets Written (fst (load_tickets b0 d)) d
                  (<[w_next_id w := opened]> (snd (load_tickets b0 d))),
                w1, TicketCreado (ticket_counter b + 1) (w_next_id w))
             /\ ch_name <$> get_channel w1 (w_next_id w)
                = Some (ticket_prefix +:+ fmt04 (ticket_counter b + 1))).
  { unfold created.
    cbv beta iota zeta delta [create_ticket create_text_channel send post].
    fold b0. destruct (load_tickets b0 d) as [b1 tickets_data].
    eexists. split; [reflexivity |].
    unfold get_channel. cbn [w_channels fst].
    rewrite lookup_alter_eq, lookup_insert_eq. reflexivity. }
  destruct Hcreated as (w1 & Ecreated & Hchannel).
  unfold after. rewrite Ecreated. cbn [fst snd].
  set (b1 := fst (load_tickets b0 d)) in *.
  set (d1 := save_tickets Written b1 d
               (<[w_next_id w := opened]> (snd (load_tickets b0 d)))) in *.
  assert (Hfile : read_file (tickets_file d1)
                  = Some (TicketsDoc (ticket_counter b1)
                            (<[w_next_id w := opened]> (snd (load_tickets b0 d)))))
    by reflexivity.
  assert (Hprefix : startswith (i_channel_name i2) ticket_prefix = true)
    by (rewrite Hname; apply prefix_append).
  assert (Hrecord : doc_tickets (TicketsDoc (ticket_counter b1)
                                   (<[w_next_id w := opened]> (snd (load_tickets b0 d))))
                    !! i_channel_id i2 = Some opened)
    by (rewrite Hid; apply lookup_insert_eq).
  rewrite (close_ticket_runs Written now2 b1 d1 w1 i2 _ opened Hrole Hprefix Hfile Hrecord).
  rewrite generate_transcript_never_closed by reflexivity.
  cbn [fst snd]. rewrite Hid, Hname.
  split; [reflexivity |]. split; [exact Hchannel |].
  split; [unfold load_tickets; rewrite Hfile; apply lookup_insert_eq |].
  split; [reflexivity |]. split.
  - unfold get_channel, delete_channel. simpl. apply lookup_delete_eq.
  - unfold load_tickets. simpl. apply lookup_insert_eq.
Qed.

Lemma created_ticket_can_be_closed_witness :
  let created := create_ticket Written monday (init no_files) no_files small_guild
                               (Interaction luis 5 "general") "no puedo entrar" in
  snd (close_ticket Written tuesday (fst (fst (fst created))) (snd (fst (fst created)))
                    (snd (fst created))
                    (Interaction ana 1000 (ticket_prefix +:+ fmt04 1)))
  = TicketCerrado.
Proof.
  intros created.
  destruct (created_ticket_can_be_closed monday tuesday (init no_files) no_files
              small_guild (Interaction luis 5 "general")
              (Interaction ana 1000 (ticket_prefix +:+ fmt04 1)) "no puedo entrar")
    as (_ & _ & _ & Hclosed & _).
  - reflexivity.
  - reflexivity.
  - reflexivity.
  - exact Hclosed.
Defined.

Lemma create_ticket_keeps_stored_counter_witness :
  let second := create_ticket Written tuesday one_ticket_bot one_ticket_disk
                              one_ticket_world (Interaction marta 5 "general")
                              "otra cosa" in
  snd second = TicketCreado 2 1002
  /\ ticket_counter (fst (fst (fst second))) = 1
  /\ doc_counter <$> read_file (tickets_file (snd (fst (fst second)))) = Some 1.
Proof.
  intros second.
  destruct (create_ticket_keeps_stored_counter tuesday one_ticket_bot one_ticket_disk
              one_ticket_world (Interaction marta 5 "general") "otra cosa"
              (TicketsDoc 1 {[1000 := Ticket 1 2 "Luis" "no puedo entrar"
                                             "2024-01-01T10:00:00" "open" None None]}))
    as (b' & d' & w' & ticket_channel & E & Hheld & Hstored).
  - reflexivity.
  - unfold second. rewrite E. cbn [fst snd].
    split; [| exact (conj Hheld Hstored)].
    vm_compute in E. injection E as _ _ _ <-. reflexivity.
Defined.

End TicketsMore.

(** ** The role gate *)

Section RoleGate.

Lemma has_required_role_names (m : member) :
  has_required_role m = true
  <-> exists name, name ∈ required_roles /\ name ∈ roles m.
Proof.
  unfold has_required_role. rewrite existsb_exists. split.
  - intros (name & Hin & Hrole). exists name. split.
    + apply list_elem_of_In. exact Hin.
    + apply bool_decide_eq_true in Hrole. exact Hrole.
  - intros (name & Hin & Hrole). exists name. split.
    + apply list_elem_of_In. exact Hin.
    + apply bool_decide_eq_true. exact Hrole.
Qed.

(** X21. A member none of whose roles is spelled exactly like one of the four
    names of [has_required_role] is refused by every administrative
    command, and the command changes nothing: no file, no bot state and
    nothing in the guild. *)
Theorem commands_are_refused_without_role
    (io : write_outcome) (today : string) (now : clock) (i : interaction)
    (b : bot) (d : disk) (w : world) :
  (forall name, name ∈ roles (i_user i) -> name ∉ required_roles) ->
  (forall f a usuario, strike_command io today i f a usuario = (f, SinPermisos))
  /\ (forall message_id,
         suggest_accept io now d w i message_id = (d, w, NoTienesPermisos)
         /\ suggest_deny io now d w i message_id = (d, w, NoTienesPermisos))
  /\ close_ticket io now b d w i = (b, d, w, NoPuedesCerrar)
  /\ (forall usuario, add_user_to_ticket w i usuario = (w, NoPuedesAnadir)).
Proof.
  intros Hroles.
  assert (Hrole : has_required_role (i_user i) = false).
  { destruct (has_required_role (i_user i)) eqn:E; [| reflexivity].
    apply has_required_role_names in E as (name & Hin & Hhas).
    exfalso. exact (Hroles name Hhas Hin). }
  repeat split.
  - intros f a usuario. unfold strike_command. rewrite Hrole. reflexivity.
  - unfold suggest_accept, suggest_resolve. rewrite Hrole. reflexivity.
  - unfold suggest_deny, suggest_resolve. rewrite Hrole. reflexivity.
  - unfold close_ticket. rewrite Hrole. reflexivity.
  - intros usuario. unfold add_user_to_ticket. rewrite Hrole. reflexivity.
Qed.

Lemma commands_are_refused_without_role_witness :
  let i := Interaction (Member 5 "leo" "Leo" false ["gerente"; "Moderador"]) 1000
                       (ticket_prefix +:+ "0001") in
  close_ticket Written tuesday one_ticket_bot one_ticket_disk one_ticket_world i
  = (one_ticket_bot, one_ticket_disk, one_ticket_world, NoPuedesCerrar).
Proof.
  intros i.
  apply (commands_are_refused_without_role Written "2024-01-02" tuesday i
           one_ticket_bot one_ticket_disk one_ticket_world).
  intros name Hname Hrequired.
  apply list_elem_of_In in Hname. apply list_elem_of_In in Hrequired.
  simpl in Hname, Hrequired.
  destruct Hname as [<- | [<- | []]];
    destruct Hrequired as [H | [H | [H | [H | []]]]]; discriminate H.
Defined.

End RoleGate.
